(** * nii2dcm: the DICOM attribute-schema builder ([nii2dcm/dcm.py])

    A shallow embedding of the two classes [Dicom] and [DicomMRI] of
    [nii2dcm/dcm.py] and of the process-wide pydicom state they touch, with
    the properties of the freshly constructed datasets.

    Conventions.
    - A pydicom dataset is a finite map from attribute keyword to the value
      that was assigned to it ([gmap string Value]).  The value conversions
      pydicom applies per value representation compare equal to the assigned
      value and are not modelled.
    - [pydicom.datadict.DicomDictionary] and [keyword_dict] are Python dicts:
      insertion-ordered association lists ([od_get], [od_set]).
    - Python statements run in the monad [Py]: a function from the state of
      the process ([World]) to an [Outcome], which either returns a value or
      raises an exception, in both cases with the new state.
    - The file-meta object is shared between [self.file_meta] and
      [self.ds.file_meta]; it lives in the object store of the [World] and
      both fields hold its reference. *)

From Stdlib Require Import Strings.Byte Strings.Ascii Strings.String.
From stdpp Require Import base option list strings pretty gmap fin_maps.

Local Open Scope string_scope.
Local Open Scope Z_scope.

(** ** Python dicts: insertion-ordered association lists *)

Section odict.
Context {K V : Type} `{EqDecision K}.

(** [d[k]], [None] standing for [KeyError]. *)
Fixpoint od_get (k : K) (d : list (K * V)) : option V :=
  match d with
  | [] => None
  | (k', v') :: d' => if decide (k = k') then Some v' else od_get k d'
  end.

(** [d[k] = v]: an existing key keeps its position, a new key is appended. *)
Fixpoint od_set (k : K) (v : V) (d : list (K * V)) : list (K * V) :=
  match d with
  | [] => [(k, v)]
  | (k', v') :: d' =>
      if decide (k = k') then (k', v) :: d' else (k', v') :: od_set k v d'
  end.

(** [d.update(items)]: the items are assigned in their order. *)
Definition od_update (d : list (K * V)) (items : list (K * V)) : list (K * V) :=
  foldl (λ acc kv, od_set kv.1 kv.2 acc) d items.

(** [dict(items)] and dict literals: assignments into an empty dict. *)
Definition od_of_list (items : list (K * V)) : list (K * V) :=
  od_update [] items.

(** [d.keys()] *)
Definition od_keys (d : list (K * V)) : list K := d.*1.
End odict.

(** ** Values, datasets, the tag dictionary *)

(** The values [dcm.py] assigns to attributes: strings, one integer and
    lists of strings. *)
Inductive Value : Type :=
  | VStr (s : string)
  | VInt (n : Z)
  | VList (l : list string).

Global Instance Value_eq_dec : EqDecision Value.
Proof. solve_decision. Defined.

(** A [DicomDictionary] entry: the tuple (VR, VM, description, is_retired
    flag, keyword). *)
Record DictEntry : Type := mkEntry {
  VR : string;
  VM : string;
  description : string;
  is_retired : string;
  keyword : string
}.

Global Instance DictEntry_eq_dec : EqDecision DictEntry.
Proof. solve_decision. Defined.

(** References into the object store. *)
Definition loc := positive.

(** [pydicom.dataset.FileDataset]: the file name, the reference to the
    file-meta object, the preamble, the two encoding flags and the data
    elements. *)
Record FileDataset : Type := mkFileDataset {
  fd_filename : string;
  fd_file_meta : loc;
  fd_preamble : list byte;
  is_implicit_VR : bool;
  is_little_endian : bool;
  data_elements : gmap string Value
}.

(** [datetime.datetime]: Python keeps 1 <= year <= 9999, 1 <= month <= 12,
    1 <= day <= 31, hour < 24, minute < 60, second < 60 and
    microsecond < 1000000. *)
Record datetime : Type := mkDatetime {
  year : N; month : N; day : N;
  hour : N; minute : N; second : N; microsecond : N
}.

(** Exceptions the modelled code can raise: [AttributeError] from reading an
    absent attribute, and the errors of pydicom's writer, which [save_as]
    does not catch. *)
Inductive Exception : Type :=
  | AttributeError (name : string)
  | FileNotFoundError (path : string)
  | OSError (message : string)
  | ValueError (message : string).

(** ** The state of the process *)

Record World : Type := mkWorld {
  (** [pydicom.datadict.DicomDictionary]: tag -> entry *)
  DicomDictionary : list (Z * DictEntry);
  (** [pydicom.datadict.keyword_dict]: keyword -> tag *)
  keyword_dict : list (string * Z);
  (** the file-meta objects alive in the process *)
  objects : gmap loc (gmap string Value);
  (** the instants [datetime.datetime.now()] returns, call after call, and
      the number of calls made so far *)
  clock : nat → datetime;
  clock_reads : nat;
  (** the strings [pydicom.uid.generate_uid(None)] returns, call after
      call, and the number of calls made so far *)
  uid_source : nat → string;
  uid_calls : nat;
  (** [os.getcwd()] *)
  cwd : string;
  (** the lines printed so far *)
  stdout : list string;
  (** the datasets pydicom's writer has written so far, with their path *)
  saved : list (string * FileDataset);
  (** pydicom's writer, on the file-meta objects, a path and a dataset: the
      exception it raises (an unwritable path, a value it cannot encode),
      or [None] when it writes the file *)
  writer : gmap loc (gmap string Value) → string → FileDataset → option Exception
}.

Definition with_DicomDictionary (d : list (Z * DictEntry)) (w : World) : World :=
  mkWorld d (keyword_dict w) (objects w) (clock w) (clock_reads w)
    (uid_source w) (uid_calls w) (cwd w) (stdout w) (saved w) (writer w).

Definition with_keyword_dict (d : list (string * Z)) (w : World) : World :=
  mkWorld (DicomDictionary w) d (objects w) (clock w) (clock_reads w)
    (uid_source w) (uid_calls w) (cwd w) (stdout w) (saved w) (writer w).

Definition with_objects (h : gmap loc (gmap string Value)) (w : World) : World :=
  mkWorld (DicomDictionary w) (keyword_dict w) h (clock w) (clock_reads w)
    (uid_source w) (uid_calls w) (cwd w) (stdout w) (saved w) (writer w).

Definition with_clock_reads (n : nat) (w : World) : World :=
  mkWorld (DicomDictionary w) (keyword_dict w) (objects w) (clock w) n
    (uid_source w) (uid_calls w) (cwd w) (stdout w) (saved w) (writer w).

Definition with_uid_calls (n : nat) (w : World) : World :=
  mkWorld (DicomDictionary w) (keyword_dict w) (objects w) (clock w)
    (clock_reads w) (uid_source w) n (cwd w) (stdout w) (saved w) (writer w).

Definition with_stdout (out : list string) (w : World) : World :=
  mkWorld (DicomDictionary w) (keyword_dict w) (objects w) (clock w)
    (clock_reads w) (uid_source w) (uid_calls w) (cwd w) out (saved w) (writer w).

Definition with_saved (s : list (string * FileDataset)) (w : World) : World :=
  mkWorld (DicomDictionary w) (keyword_dict w) (objects w) (clock w)
    (clock_reads w) (uid_source w) (uid_calls w) (cwd w) (stdout w) s (writer w).

(** ** The monad of Python statements *)

Inductive Outcome (A : Type) : Type :=
  | Returns (a : A) (w : World)
  | Raises (e : Exception) (w : World).
Arguments Returns {A} a w.
Arguments Raises {A} e w.

Definition Py (A : Type) : Type := World → Outcome A.

Definition ret {A} (a : A) : Py A := λ w, Returns a w.

Definition bind {A B} (m : Py A) (k : A → Py B) : Py B :=
  λ w, match m w with
       | Returns a w' => k a w'
       | Raises e w' => Raises e w'
       end.

Definition raise {A} (e : Exception) : Py A := λ w, Raises e w.

Definition modify (f : World → World) : Py unit := λ w, Returns tt (f w).

Definition gets {A} (f : World → A) : Py A := λ w, Returns (f w) w.

Declare Scope py_scope.
Delimit Scope py_scope with py.
Notation "x <- m ;; k" := (bind m (λ x, k))
  (at level 100, m at next level, right associativity) : py_scope.
Notation "m ;; k" := (bind m (λ _, k))
  (at level 100, right associativity) : py_scope.

Local Open Scope py_scope.

(** ** The collaborators: clock, identifiers, file-meta objects, paths *)

(** [datetime.datetime.now()]: one more reading of the clock. *)
Definition datetime_now : Py datetime :=
  λ w, Returns (clock w (clock_reads w)) (with_clock_reads (S (clock_reads w)) w).

(** [pydicom.uid.generate_uid(None)]: one more string of the generator. *)
Definition generate_uid : Py string :=
  λ w, Returns (uid_source w (uid_calls w)) (with_uid_calls (S (uid_calls w)) w).

(** The character of the decimal digit [d]. *)
Definition digit (d : N) : ascii := ascii_of_N (48 + d).

(** The decimal digits of [n], zero-padded to [width] places (the values of
    a [datetime] fit their places). *)
Fixpoint zero_padded (width : nat) (n : N) : string :=
  match width with
  | O => ""
  | S width' => zero_padded width' (n / 10) +:+ String (digit (n mod 10)) ""
  end.

(** One [strftime] directive, for the directives [dcm.py] uses.  [%Y] is
    that of a year of four digits, as every reading of a clock has (the C
    library prints a smaller year without the zeros). *)
Definition directive (c : ascii) (dt : datetime) : string :=
  if decide (c = "Y"%char) then zero_padded 4 (year dt)
  else if decide (c = "m"%char) then zero_padded 2 (month dt)
  else if decide (c = "d"%char) then zero_padded 2 (day dt)
  else if decide (c = "H"%char) then zero_padded 2 (hour dt)
  else if decide (c = "M"%char) then zero_padded 2 (minute dt)
  else if decide (c = "S"%char) then zero_padded 2 (second dt)
  else if decide (c = "f"%char) then zero_padded 6 (microsecond dt)
  else if decide (c = "%"%char) then "%"
  else String "%" (String c "").

(** [dt.strftime(fmt)] *)
Fixpoint strftime (dt : datetime) (fmt : string) : string :=
  match fmt with
  | "" => ""
  | String c rest =>
      if decide (c = "%"%char) then
        match rest with
        | "" => "%"
        | String c' rest' => directive c' dt +:+ strftime dt rest'
        end
      else String c (strftime dt rest)
  end.

(** [FileMetaDataset()]: a new, empty file-meta object. *)
Definition FileMetaDataset_new : Py loc :=
  λ w, let l := fresh (dom (objects w)) in
       Returns l (with_objects (<[l := ∅]> (objects w)) w).

(** [file_meta.name = v] on the object behind the reference. *)
Definition file_meta_setattr (l : loc) (name : string) (v : Value) : Py unit :=
  modify (λ w, with_objects (alter (insert name v) l (objects w)) w).

(** [bytes * n] *)
Definition bytes_mul (b : list byte) (n : nat) : list byte :=
  mjoin (replicate n b).

(** [FileDataset(filename, dataset, file_meta=..., preamble=...)]; the two
    encoding flags take the defaults of pydicom's signature. *)
Definition FileDataset_new (filename : string) (dataset : gmap string Value)
    (file_meta : loc) (preamble : list byte) : FileDataset :=
  mkFileDataset filename file_meta preamble true true dataset.

Definition set_is_implicit_VR (b : bool) (ds : FileDataset) : FileDataset :=
  mkFileDataset (fd_filename ds) (fd_file_meta ds) (fd_preamble ds)
    b (is_little_endian ds) (data_elements ds).

Definition set_is_little_endian (b : bool) (ds : FileDataset) : FileDataset :=
  mkFileDataset (fd_filename ds) (fd_file_meta ds) (fd_preamble ds)
    (is_implicit_VR ds) b (data_elements ds).

(** [ds.name = v] for a keyword [name] of pydicom's dictionary, as every
    name is that the two classes assign: the data element is set.  (On any
    other name pydicom sets a plain attribute and no data element; no
    statement below assigns such a name.) *)
Definition setattr (name : string) (v : Value) (ds : FileDataset) : FileDataset :=
  mkFileDataset (fd_filename ds) (fd_file_meta ds) (fd_preamble ds)
    (is_implicit_VR ds) (is_little_endian ds) (<[name := v]> (data_elements ds)).

(** [ds.name], which raises [AttributeError] on an absent element. *)
Definition getattr (name : string) (ds : FileDataset) : Py Value :=
  match data_elements ds !! name with
  | Some v => ret v
  | None => raise (AttributeError name)
  end.

(** [os.path.join(a, b)] on POSIX paths. *)
Definition ends_with_slash (a : string) : bool :=
  match last (list_ascii_of_string a) with
  | Some c => bool_decide (c = "/"%char)
  | None => false
  end.

Definition os_path_join (a b : string) : string :=
  match b with
  | String c _ =>
      if decide (c = "/"%char) then b
      else if decide (a = "") then b
      else if ends_with_slash a then a +:+ b
      else a +:+ "/" +:+ b
  | "" =>
      if decide (a = "") then ""
      else if ends_with_slash a then a
      else a +:+ "/"
  end.

(** [ds.save_as(path)]: pydicom's writer writes the dataset or raises. *)
Definition FileDataset_save_as (ds : FileDataset) (path : string) : Py unit :=
  λ w, match writer w (objects w) path ds with
       | Some e => Raises e w
       | None => Returns tt (with_saved (saved w ++ [(path, ds)]) w)
       end.

(** [print(a, b)]: the two strings, a space between them, on one line. *)
Definition print (a b : string) : Py unit :=
  modify (λ w, with_stdout (stdout w ++ [a +:+ " " +:+ b]) w).

(** ** The instances *)

(** An instance of [Dicom] or of [DicomMRI]: its three attributes. *)
Record DicomObject : Type := mkDicomObject {
  filename : string;
  file_meta : loc;
  ds : FileDataset
}.

(** A statement that changes [self.ds] in place. *)
Definition ds_modify (f : FileDataset → FileDataset) (self : DicomObject) : DicomObject :=
  mkDicomObject (filename self) (file_meta self) (f (ds self)).

(** [self.ds.name = v] *)
Definition ds_setattr (name : string) (v : Value) (self : DicomObject) : DicomObject :=
  ds_modify (setattr name v) self.

Definition nii2dcm_temp_filename : string := "nii2dcm_tempfile.dcm".

(** ** class Dicom *)

Module Dicom.

(** The private tags of [dcm_dictionary_update], in the order of the
    dict literal. *)
Definition new_dict_items : list (Z * DictEntry) := od_of_list [
  (0x20011002, mkEntry "IS" "1" "Chemical Shift Number MR" "" "ChemicalShiftNumberMR");
  (0x20011008, mkEntry "IS" "1" "Phase Number" "" "PhaseNumber");
  (0x2001100a, mkEntry "IS" "1" "Slice Number MR" "" "SliceNumberMR");
  (0x2001100b, mkEntry "CS" "1" "Slice Orientation" "" "SliceOrientation");
  (0x20011014, mkEntry "SL" "1" "Number Of Echoes" "" "NumberOfEchoes");
  (0x20011015, mkEntry "SS" "1" "Number Of Locations" "" "NumberOfLocations");
  (0x20011016, mkEntry "SS" "1" "Number Of PC Directions" "" "NumberOfPCDirections");
  (0x20011017, mkEntry "SL" "1" "Number Of Phases MR" "" "NumberOfPhasesMR");
  (0x20011018, mkEntry "SL" "1" "Number Of Slices MR" "" "NumberOfSlicesMR");
  (0x20011020, mkEntry "LO" "1" "Scanning Technique" "" "ScanningTechnique");
  (0x20011025, mkEntry "SH" "1" "Echo Time Display MR" "" "EchoTimeDisplayMR");
  (0x20011060, mkEntry "SL" "1" "Number Of Stacks" "" "NumberOfStacks");
  (0x20011063, mkEntry "CS" "1" "Examination Source" "" "ExaminationSource");
  (0x20011081, mkEntry "IS" "1" "Number Of Dynamic Scans" "" "NumberOfDynamicScans");
  (0x2001101a, mkEntry "FL" "3" "PC Velocity" "" "PCVelocity");
  (0x2001101d, mkEntry "IS" "1" "Reconstruction Number MR" "" "ReconstructionNumberMR");
  (0x20051035, mkEntry "CS" "1" "" "" "unknowntag20051035");
  (0x20051011, mkEntry "CS" "1" "MR Image Type" "" "MRImageType");
  (0x2005106e, mkEntry "CS" "1" "MR Scan Sequence" "" "MRScanSequence");
  (0x2001105f, mkEntry "SQ" "1" "Stack" "" "Stack");
  (0x20010010, mkEntry "LO" "1" "Private Creator" "" "PrivateCreator20010010");
  (0x2001102d, mkEntry "SS" "1" "StackNumberOfSlices" "" "StackNumberOfSlices");
  (0x20011032, mkEntry "FL" "1" "StackRadialAngle" "" "StackRadialAngle");
  (0x20011033, mkEntry "CS" "1" "StackRadialAxis" "" "StackRadialAxis");
  (0x20011035, mkEntry "SS" "1" "MRSeriesDataType" "" "MRSeriesDataType");
  (0x20011036, mkEntry "CS" "1" "StackType" "" "StackType");
  (0x20050010, mkEntry "LO" "1" "Private Creator" "" "PrivateCreator20050010");
  (0x20050011, mkEntry "LO" "1" "Private Creator" "" "PrivateCreator20050011");
  (0x20050012, mkEntry "LO" "1" "Private Creator" "" "PrivateCreator20050012");
  (0x20050013, mkEntry "LO" "1" "Private Creator" "" "PrivateCreator20050013");
  (0x20050014, mkEntry "LO" "1" "Private Creator" "" "PrivateCreator20050014");
  (0x20050015, mkEntry "LO" "1" "Private Creator" "" "PrivateCreator20050015");
  (0x20051071, mkEntry "FL" "1" "MRStackAngulationAP" "" "MRStackAngulationAP");
  (0x20051072, mkEntry "FL" "1" "MRStackAngulationFH" "" "MRStackAngulationFH");
  (0x20051073, mkEntry "FL" "1" "MRStackAngulationRL" "" "MRStackAngulationRL");
  (0x20051074, mkEntry "FL" "1" "MRStackFovAP" "" "MRStackFovAP");
  (0x20051075, mkEntry "FL" "1" "MRStackFovFH" "" "MRStackFovFH");
  (0x20051076, mkEntry "FL" "1" "MRStackFovRL" "" "MRStackFovRL");
  (0x20051078, mkEntry "FL" "1" "MRStackOffcentreAP" "" "MRStackOffcentreAP");
  (0x20051079, mkEntry "FL" "1" "MRStackOffcentreFH" "" "MRStackOffcentreFH");
  (0x2005107a, mkEntry "FL" "1" "MRStackOffcentreRL" "" "MRStackOffcentreRL");
  (0x2005107b, mkEntry "CS" "1" "MRStackPreparationDirection" "" "MRStackPreparationDirection");
  (0x2005107e, mkEntry "FL" "1" "MRStackSliceDistance" "" "MRStackSliceDistance");
  (0x20051081, mkEntry "CS" "1" "MRStackViewAxis" "" "MRStackViewAxis");
  (0x2005143c, mkEntry "FL" "1" "MRStackTablePosLong" "" "MRStackTablePosLong");
  (0x2005143d, mkEntry "FL" "1" "MRStackTablePosLat" "" "MRStackTablePosLat");
  (0x2005143e, mkEntry "FL" "1" "MRStackPosteriorCoilPos" "" "MRStackPosteriorCoilPos");
  (0x20051567, mkEntry "IS" "1" "MRPhilipsX1" "" "MRPhilipsX1");
  (0x00089209, mkEntry "CS" "1" "Acquisition Contrast" "" "AcquisitionContrast");
  (0x00189014, mkEntry "CS" "1" "Phase Contrast" "" "PhaseContrast");
  (0x00189090, mkEntry "FD" "3" "Velocity Encoding Direction" "" "VelocityEncodingDirection");
  (0x00189091, mkEntry "FD" "1" "Velocity Encoding Minimum Value" "" "VelocityEncodingMinimumValue")
].

(** Registers the private tags in pydicom's [DicomDictionary] and their
    keywords in the reverse map [keyword_dict]. *)
Definition dcm_dictionary_update : Py unit :=
  (* Update the dictionary itself *)
  modify (λ w, with_DicomDictionary
                 (od_update (DicomDictionary w) new_dict_items) w) ;;
  (* Update the reverse mapping from name to tag *)
  let new_names_dict :=
    od_of_list ((λ item, (keyword item.2, item.1)) <$> new_dict_items) in
  modify (λ w, with_keyword_dict
                 (od_update (keyword_dict w) new_names_dict) w).

(** Study tags: fixed across instances and series. *)
Definition init_study_tags (self : DicomObject) : Py DicomObject :=
  uid <- generate_uid ;;
  ret (ds_setattr "StudyInstanceUID" (VStr uid) self).

(** Series tags: fixed across instances. *)
Definition init_series_tags (self : DicomObject) : Py DicomObject :=
  uid <- generate_uid ;;
  let self := ds_setattr "SeriesInstanceUID" (VStr uid) self in
  uid <- generate_uid ;;
  let self := ds_setattr "FrameOfReferenceUID" (VStr uid) self in
  let self := ds_setattr "SeriesNumber" (VStr "") self in
  let self := ds_setattr "AcquisitionNumber" (VStr "") self in
  ret self.

Definition __init__ (filename : string) : Py DicomObject :=
  (* self.filename = filename: part of [self] below *)
  dcm_dictionary_update ;;
  (* Instantiates minimal Pydicom FileMetaDataset object *)
  file_meta <- FileMetaDataset_new ;;
  file_meta_setattr file_meta "TransferSyntaxUID" (VStr "1.2.840.10008.1.2.1") ;;
  file_meta_setattr file_meta "ImplementationVersionName" (VStr "nii2dcm_DICOM") ;;
  (* Instantiates minimal DataSet object *)
  let self :=
    mkDicomObject filename file_meta
      (FileDataset_new filename ∅ file_meta (bytes_mul [x00] 128)) in
  let self := ds_modify (set_is_implicit_VR false) self in
  let self := ds_modify (set_is_little_endian true) self in
  let self := ds_setattr "SpecificCharacterSet" (VStr "ISO_IR 100") self in
  let self := ds_setattr "ImageType" (VList ["DERIVED"; "SECONDARY"]) self in
  let self := ds_setattr "ProtocolName" (VStr "nii2dcm_DICOM") self in
  let self := ds_setattr "PatientName" (VStr "Test^Firstname") self in
  let self := ds_setattr "PatientID" (VStr "12345678") self in
  let self := ds_setattr "AccessionNumber" (VStr "ABCXYZ") self in
  let self := ds_setattr "PatientBirthDate" (VStr "") self in
  let self := ds_setattr "PatientSex" (VStr "") self in
  let self := ds_setattr "PatientAge" (VStr "") self in
  let self := ds_setattr "PatientWeight" (VStr "") self in
  let self := ds_setattr "BodyPartExamined" (VStr "") self in
  let self := ds_setattr "InstitutionName" (VStr "INSTITUTION_NAME_NONE") self in
  let self := ds_setattr "Manufacturer" (VStr "") self in
  let self := ds_setattr "ManufacturerModelName" (VStr "") self in
  let self := ds_setattr "StudyDescription" (VStr "") self in
  let self := ds_setattr "InstanceCreatorUID" (VStr "") self in
  let self := ds_setattr "SoftwareVersions" (VStr "") self in
  let self := ds_setattr "SOPClassUID" (VStr "") self in
  let self := ds_setattr "Modality" (VStr "") self in
  dt <- datetime_now ;;
  let dateStr := strftime dt "%Y%m%d" in
  let timeStr := strftime dt "%H%M%S.%f" in
  let self := ds_setattr "ContentDate" (VStr dateStr) self in
  let self := ds_setattr "ContentTime" (VStr timeStr) self in
  let self := ds_setattr "StudyDate" (VStr dateStr) self in
  let self := ds_setattr "StudyTime" (VStr timeStr) self in
  let self := ds_setattr "SeriesDate" (VStr dateStr) self in
  let self := ds_setattr "SeriesTime" (VStr timeStr) self in
  let self := ds_setattr "AcquisitionDate" (VStr dateStr) self in
  let self := ds_setattr "AcquisitionTime" (VStr timeStr) self in
  let self := ds_setattr "InstanceCreationDate" (VStr dateStr) self in
  let self := ds_setattr "InstanceCreationTime" (VStr timeStr) self in
  let self := ds_setattr "Rows" (VStr "") self in
  let self := ds_setattr "Columns" (VStr "") self in
  let self := ds_setattr "PixelSpacing" (VStr "") self in
  let self := ds_setattr "PixelRepresentation" (VStr "") self in
  let self := ds_setattr "PatientPosition" (VStr "") self in
  let self := ds_setattr "ImageOrientationPatient" (VList ["1"; "0"; "0"; "0"; "1"; "0"]) self in
  let self := ds_setattr "LossyImageCompression" (VStr "") self in
  let self := ds_setattr "RescaleIntercept" (VStr "") self in
  let self := ds_setattr "RescaleSlope" (VStr "") self in
  let self := ds_setattr "WindowCenter" (VStr "") self in
  let self := ds_setattr "WindowWidth" (VStr "") self in
  let self := ds_setattr "SOPInstanceUID" (VStr "") self in
  let self := ds_setattr "InstanceNumber" (VStr "") self in
  let self := ds_setattr "SliceThickness" (VStr "") self in
  let self := ds_setattr "SpacingBetweenSlices" (VStr "") self in
  let self := ds_setattr "SliceLocation" (VStr "") self in
  let self := ds_setattr "ImagePositionPatient" (VList ["0"; "0"; "0"]) self in
  self <- init_study_tags self ;;
  self <- init_series_tags self ;;
  ret self.

Definition get_file_meta (self : DicomObject) : Py loc :=
  ret (file_meta self).

Definition get_dataset (self : DicomObject) : Py FileDataset :=
  ret (ds self).

(** The line is printed, then [self.ds.save_as(self.filename)] hands the
    dataset to pydicom's writer, whose error is not caught; the encoding and
    the file are pydicom's. *)
Definition save_as (self : DicomObject) : Py unit :=
  dir <- gets cwd ;;
  print "Writing DICOM to" (os_path_join dir (filename self)) ;;
  FileDataset_save_as (ds self) (filename self).

End Dicom.

(** ** class DicomMRI(Dicom) *)

Module DicomMRI.

(** The branch on [PhotometricInterpretation] that sets
    [PresentationLUTShape]. *)
Definition PresentationLUTShape_branch (self : DicomObject) : Py DicomObject :=
  p <- getattr "PhotometricInterpretation" (ds self) ;;
  if decide (p = VStr "MONOCHROME2") then
    ret (ds_setattr "PresentationLUTShape" (VStr "IDENTITY") self)
  else
    p <- getattr "PhotometricInterpretation" (ds self) ;;
    if decide (p = VStr "MONOCHROME1") then
      ret (ds_setattr "PresentationLUTShape" (VStr "INVERSE") self)
    else ret self.

(** The statements of [DicomMRI.__init__] that follow
    [super().__init__(filename)]: the MR Image Module attributes. *)
Definition mr_image_module (self : DicomObject) : Py DicomObject :=
  let self := ds_setattr "Modality" (VStr "MR") self in
  (* MR Image Storage SOP Class *)
  file_meta_setattr (file_meta self) "MediaStorageSOPClassUID"
    (VStr "1.2.840.10008.5.1.4.1.1.4") ;;
  let self := ds_setattr "SOPClassUID" (VStr "1.2.840.10008.5.1.4.1.1.4") self in
  (* ImageType: inherited from the Dicom class *)
  image_type <- getattr "ImageType" (ds self) ;;
  let self := ds_setattr "ImageType" image_type self in
  let self := ds_setattr "SamplesPerPixel" (VStr "") self in
  let self := ds_setattr "PhotometricInterpretation" (VStr "MONOCHROME2") self in
  self <- PresentationLUTShape_branch self ;;
  (* Bits Allocated: defined to equal 16 for MR Image Module *)
  let self := ds_setattr "BitsAllocated" (VInt 16) self in
  let self := ds_setattr "BitsStored" (VStr "") self in
  let self := ds_setattr "HighBit" (VStr "") self in
  let self := ds_setattr "ScanningSequence" (VStr "RM") self in
  let self := ds_setattr "SequenceVariant" (VStr "") self in
  let self := ds_setattr "ScanOptions" (VStr "") self in
  let self := ds_setattr "MRAcquisitionType" (VStr "") self in
  let self := ds_setattr "RepetitionTime" (VStr "") self in
  let self := ds_setattr "EchoTime" (VStr "") self in
  let self := ds_setattr "EchoTrainLength" (VStr "") self in
  let self := ds_setattr "InversionTime" (VStr "") self in
  let self := ds_setattr "TriggerTime" (VStr "") self in
  let self := ds_setattr "SequenceName" (VStr "") self in
  let self := ds_setattr "AngioFlag" (VStr "") self in
  let self := ds_setattr "NumberOfAverages" (VStr "") self in
  let self := ds_setattr "ImagingFrequency" (VStr "") self in
  let self := ds_setattr "ImagedNucleus" (VStr "") self in
  let self := ds_setattr "EchoNumbers" (VStr "") self in
  let self := ds_setattr "MagneticFieldStrength" (VStr "") self in
  let self := ds_setattr "NumberOfPhaseEncodingSteps" (VStr "") self in
  let self := ds_setattr "PercentSampling" (VStr "") self in
  let self := ds_setattr "PercentPhaseFieldOfView" (VStr "") self in
  let self := ds_setattr "PixelBandwidth" (VStr "") self in
  let self := ds_setattr "NominalInterval" (VStr "") self in
  let self := ds_setattr "BeatRejectionFlag" (VStr "") self in
  let self := ds_setattr "LowRRValue" (VStr "") self in
  let self := ds_setattr "HighRRValue" (VStr "") self in
  let self := ds_setattr "IntervalsAcquired" (VStr "") self in
  let self := ds_setattr "IntervalsRejected" (VStr "") self in
  let self := ds_setattr "PVCRejection" (VStr "") self in
  let self := ds_setattr "SkipBeats" (VStr "") self in
  let self := ds_setattr "HeartRate" (VStr "") self in
  let self := ds_setattr "CardiacNumberOfImages" (VStr "") self in
  let self := ds_setattr "TriggerWindow" (VStr "") self in
  let self := ds_setattr "ReconstructionDiameter" (VStr "") self in
  let self := ds_setattr "ReceiveCoilName" (VStr "") self in
  let self := ds_setattr "TransmitCoilName" (VStr "") self in
  let self := ds_setattr "AcquisitionMatrix" (VStr "") self in
  let self := ds_setattr "InPlanePhaseEncodingDirection" (VStr "") self in
  let self := ds_setattr "FlipAngle" (VStr "") self in
  let self := ds_setattr "SAR" (VStr "") self in
  let self := ds_setattr "VariableFlipAngleFlag" (VStr "") self in
  let self := ds_setattr "dBdt" (VStr "") self in
  let self := ds_setattr "TemporalPositionIdentifier" (VStr "") self in
  let self := ds_setattr "NumberOfTemporalPositions" (VStr "") self in
  let self := ds_setattr "TemporalResolution" (VStr "") self in
  let self := ds_setattr "IsocenterPosition" (VStr "") self in
  let self := ds_setattr "B1rms" (VStr "") self in
  ret self.

Definition __init__ (filename : string) : Py DicomObject :=
  self <- Dicom.__init__ filename ;;
  mr_image_module self.

(** The methods [DicomMRI] inherits. *)
Definition get_file_meta := Dicom.get_file_meta.
Definition get_dataset := Dicom.get_dataset.
Definition save_as := Dicom.save_as.
Definition init_study_tags := Dicom.init_study_tags.
Definition init_series_tags := Dicom.init_series_tags.
Definition dcm_dictionary_update := Dicom.dcm_dictionary_update.

End DicomMRI.

(** * Vocabulary of the statements *)

(** A process state to run the constructors on: nothing registered, no
    object allocated, a clock that starts on 29 February 2024 at
    13:05:00.123456, identifiers 2.25.0, 2.25.1, ... and a writer that
    writes every dataset. *)
Definition example_world : World :=
  mkWorld [] [] ∅
    (λ n, mkDatetime 2024 2 29 13 5 (N.of_nat n mod 60) 123456) 0
    (λ n, "2.25." +:+ pretty n) 0
    "/tmp" [] [] (λ _ _ _, None).

(** [example_world] with a generator that never repeats a string and whose
    first string is empty. *)
Definition empty_first_uid_world : World :=
  mkWorld [] [] ∅
    (clock example_world) 0
    (λ n, match n with O => "" | S m => "2.25." +:+ pretty m end) 0
    "/tmp" [] [] (λ _ _ _, None).

(** [example_world] with a writer that finds no directory to write to. *)
Definition unwritable_world : World :=
  mkWorld [] [] ∅
    (clock example_world) 0
    (uid_source example_world) 0
    "/tmp" [] [] (λ _ path _, Some (FileNotFoundError path)).

(** The MR acquisition attributes of [DicomMRI.__init__] that the code
    leaves as placeholders, in the order of their assignment (SequenceVariant
    to B1rms). *)
Definition mr_placeholder_attributes : list string :=
  [
    "SequenceVariant"; "ScanOptions"; "MRAcquisitionType"; "RepetitionTime";
    "EchoTime"; "EchoTrainLength"; "InversionTime"; "TriggerTime";
    "SequenceName"; "AngioFlag"; "NumberOfAverages"; "ImagingFrequency";
    "ImagedNucleus"; "EchoNumbers"; "MagneticFieldStrength";
    "NumberOfPhaseEncodingSteps"; "PercentSampling";
    "PercentPhaseFieldOfView"; "PixelBandwidth"; "NominalInterval";
    "BeatRejectionFlag"; "LowRRValue"; "HighRRValue"; "IntervalsAcquired";
    "IntervalsRejected"; "PVCRejection"; "SkipBeats"; "HeartRate";
    "CardiacNumberOfImages"; "TriggerWindow"; "ReconstructionDiameter";
    "ReceiveCoilName"; "TransmitCoilName"; "AcquisitionMatrix";
    "InPlanePhaseEncodingDirection"; "FlipAngle"; "SAR";
    "VariableFlipAngleFlag"; "dBdt"; "TemporalPositionIdentifier";
    "NumberOfTemporalPositions"; "TemporalResolution"; "IsocenterPosition";
    "B1rms"
  ].

(** The additional MR acquisition attributes: ScanningSequence and the
    placeholders. *)
Definition mr_acquisition_attributes : list string :=
  "ScanningSequence" :: mr_placeholder_attributes.

(** The image-pixel attributes [DicomMRI.__init__] adds before them. *)
Definition mr_image_pixel_attributes : list string :=
  [ "SamplesPerPixel"; "PhotometricInterpretation"; "PresentationLUTShape";
    "BitsAllocated"; "BitsStored"; "HighBit" ].

(** [s] without its ending [suffix], when it ends with it. *)
Definition strip_suffix (suffix s : string) : option string :=
  let n := (String.length s - String.length suffix)%nat in
  if decide ((String.length suffix ≤ String.length s)%nat ∧
             substring n (String.length suffix) s = suffix)
  then Some (substring 0 n s) else None.

(** The date/time pairs of a dataset: each keyword xDate that comes with a
    keyword xTime, and that keyword. *)
Definition date_time_pairs (m : gmap string Value) : list (string * string) :=
  omap (λ k, stem ← strip_suffix "Date" k;
             if decide (is_Some (m !! (stem +:+ "Time")))
             then Some (k, stem +:+ "Time") else None)
       (map_to_list m).*1.

(** The keywords of a dataset that end in Date. *)
Definition date_keywords (m : gmap string Value) : list string :=
  filter (λ k, is_Some (strip_suffix "Date" k)) (map_to_list m).*1.

(** The date/time attribute pairs that [Dicom.__init__] stamps, in the
    order of their assignment. *)
Definition stamped_pairs : list (string * string) :=
  [ ("ContentDate", "ContentTime");
    ("StudyDate", "StudyTime");
    ("SeriesDate", "SeriesTime");
    ("AcquisitionDate", "AcquisitionTime");
    ("InstanceCreationDate", "InstanceCreationTime") ].

(** The attributes to which [Dicom.__init__] gives a value of its own: a
    constant that is not empty, the timestamp or an identifier. *)
Definition Dicom_valued_attributes : list string :=
  [ "SpecificCharacterSet"; "ImageType"; "ProtocolName";
    "PatientName"; "PatientID"; "AccessionNumber"; "InstitutionName";
    "ContentDate"; "ContentTime"; "StudyDate"; "StudyTime";
    "SeriesDate"; "SeriesTime"; "AcquisitionDate"; "AcquisitionTime";
    "InstanceCreationDate"; "InstanceCreationTime";
    "ImageOrientationPatient"; "ImagePositionPatient";
    "StudyInstanceUID"; "SeriesInstanceUID"; "FrameOfReferenceUID" ].

(** The attributes to which [DicomMRI.__init__] gives a value of its own, on
    top of those. *)
Definition DicomMRI_valued_attributes : list string :=
  [ "Modality"; "SOPClassUID"; "PhotometricInterpretation";
    "PresentationLUTShape"; "BitsAllocated"; "ScanningSequence" ].

(** A decimal digit. *)
Definition is_digit (c : ascii) : Prop :=
  (48 ≤ N_of_ascii c ≤ 57)%N.

(** A string of [n] decimal digits. *)
Definition digits (n : nat) (s : string) : Prop :=
  String.length s = n ∧ Forall is_digit (list_ascii_of_string s).

(** The number a string of decimal digits writes, after the digits [acc]. *)
Fixpoint decimal_from (acc : N) (s : string) : N :=
  match s with
  | "" => acc
  | String c rest => decimal_from (10 * acc + (N_of_ascii c - 48)) rest
  end.

Definition decimal (s : string) : N := decimal_from 0 s.

(** The values a [datetime] of Python can have, with a year of four digits. *)
Definition datetime_in_range (dt : datetime) : Prop :=
  (1000 ≤ year dt ≤ 9999 ∧ 1 ≤ month dt ≤ 12 ∧ 1 ≤ day dt ≤ 31 ∧
   hour dt < 24 ∧ minute dt < 60 ∧ second dt < 60 ∧ microsecond dt < 1000000)%N.

(** * Properties *)

(** ** Insertion-ordered dicts *)

Section odict_facts.
Context {K V : Type} `{EqDecision K}.
Implicit Types (k : K) (v : V) (d items : list (K * V)).

Lemma od_keys_set k v d : od_keys d ⊆ od_keys (od_set k v d).
Proof.
  intros k0. unfold od_keys.
  induction d as [|[k' v'] d IH]; simpl; [by intros ?%elem_of_nil|].
  case_decide; simpl; [done|].
  rewrite !elem_of_cons. intros [?|?]; [by left|right; by apply IH].
Qed.

Lemma od_keys_set_here k v d : k ∈ od_keys (od_set k v d).
Proof.
  unfold od_keys. induction d as [|[k' v'] d IH]; simpl; [apply list_elem_of_here|].
  case_decide; subst; simpl; [apply list_elem_of_here|].
  by apply list_elem_of_further.
Qed.

Lemma od_get_set_eq k v d : od_get k (od_set k v d) = Some v.
Proof.
  induction d as [|[k' v'] d IH]; simpl.
  - by rewrite decide_True.
  - case_decide; simpl; [subst; by rewrite decide_True|].
    by rewrite decide_False.
Qed.

Lemma od_get_set_ne k k' v d : k ≠ k' → od_get k' (od_set k v d) = od_get k' d.
Proof.
  intros Hne. induction d as [|[k0 v0] d IH]; simpl.
  - by rewrite decide_False.
  - case_decide; simpl; subst.
    + by rewrite !decide_False.
    + by rewrite IH.
Qed.

(** Assigning a key twice is assigning it once, with the last value. *)
Lemma od_set_set k v v' d : od_set k v (od_set k v' d) = od_set k v d.
Proof.
  induction d as [|[k0 v0] d IH]; simpl.
  - by rewrite decide_True.
  - case_decide; simpl; subst.
    + by rewrite decide_True.
    + rewrite decide_False by done. by rewrite IH.
Qed.

(** Assignments to two keys commute when one of them is already there:
    neither changes the position of the other. *)
Lemma od_set_comm k k' v v' d :
  k ≠ k' → k ∈ od_keys d →
  od_set k v (od_set k' v' d) = od_set k' v' (od_set k v d).
Proof.
  intros Hne. induction d as [|[k0 v0] d IH]; simpl; intros Hin.
  - by apply elem_of_nil in Hin.
  - destruct (decide (k' = k0)) as [->|Hk'], (decide (k = k0)) as [->|Hk];
      simpl; try done.
    + rewrite decide_False by done. by rewrite decide_True.
    + rewrite decide_True by done. by rewrite decide_False.
    + rewrite !decide_False by done. f_equal. apply IH.
      unfold od_keys in Hin. simpl in Hin.
      apply elem_of_cons in Hin as [?|?]; done.
Qed.

Lemma od_update_snoc d items k v :
  od_update d (items ++ [(k, v)]) = od_set k v (od_update d items).
Proof. unfold od_update. by rewrite foldl_app. Qed.

Lemma od_keys_update d items : od_keys d ⊆ od_keys (od_update d items).
Proof.
  revert d. induction items as [|[k v] items IH]; intros d; simpl; [done|].
  etrans; [apply (od_keys_set k v)|apply IH].
Qed.

Lemma od_keys_update_items d items : od_keys items ⊆ od_keys (od_update d items).
Proof.
  revert d. induction items as [|[k v] items IH]; intros d.
  - by intros k' ?%elem_of_nil.
  - intros k' Hin. unfold od_keys in Hin. simpl in Hin.
    apply elem_of_cons in Hin as [->|Hin].
    + apply (od_keys_update (od_set k v d) items), od_keys_set_here.
    + by apply (IH (od_set k v d)).
Qed.

(** On a dict that holds every key of [items], assigning [k] before the
    update is overwritten or kept by the assignment of [k] after it. *)
Lemma od_set_update_set k v d items :
  od_keys items ⊆ od_keys d →
  od_set k v (od_update (od_set k v d) items) = od_set k v (od_update d items).
Proof.
  revert d. induction items as [|[k1 v1] items IH]; intros d Hsub; simpl.
  - apply od_set_set.
  - assert (k1 ∈ od_keys d) as Hk1 by apply Hsub, list_elem_of_here.
    assert (od_keys items ⊆ od_keys (od_set k1 v1 d)) as Hsub'.
    { intros k' Hk'. by apply od_keys_set, Hsub, list_elem_of_further. }
    destruct (decide (k1 = k)) as [->|Hne].
    + by rewrite od_set_set.
    + rewrite (od_set_comm k1 k v1 v d Hne Hk1). by apply IH.
Qed.

(** [d.update(items)] twice is [d.update(items)] once: same keys, same
    order, same values. *)
Lemma od_update_idemp d items :
  od_update (od_update d items) items = od_update d items.
Proof.
  revert d. induction items as [|[k v] items IH] using rev_ind; intros d; [done|].
  rewrite !od_update_snoc.
  rewrite (od_set_update_set k v (od_update d items) items)
    by apply od_keys_update_items.
  by rewrite IH.
Qed.
End odict_facts.

(** ** Running the constructors *)

(** What the branch on PhotometricInterpretation does on any dataset that
    has the attribute. *)
Lemma PresentationLUTShape_branch_run (self : DicomObject) (w : World) (p : Value) :
  data_elements (ds self) !! "PhotometricInterpretation" = Some p →
  DicomMRI.PresentationLUTShape_branch self w =
    Returns
      (if decide (p = VStr "MONOCHROME2") then
         ds_setattr "PresentationLUTShape" (VStr "IDENTITY") self
       else if decide (p = VStr "MONOCHROME1") then
         ds_setattr "PresentationLUTShape" (VStr "INVERSE") self
       else self) w.
Proof.
  intros Hp. unfold DicomMRI.PresentationLUTShape_branch, bind, getattr.
  rewrite Hp. unfold ret. destruct (decide (p = VStr "MONOCHROME2")); [done|].
  by destruct (decide (p = VStr "MONOCHROME1")).
Qed.

(** Unfolds the statements of the two classes down to the operations on
    maps, dicts and counters. *)
Ltac py_unfold :=
  cbv beta iota zeta delta
    [DicomMRI.__init__ DicomMRI.mr_image_module
     Dicom.__init__ Dicom.init_study_tags Dicom.init_series_tags
     Dicom.dcm_dictionary_update Dicom.save_as
     bind ret raise modify gets generate_uid datetime_now FileMetaDataset_new
     file_meta_setattr print ds_setattr ds_modify setattr
     set_is_implicit_VR set_is_little_endian FileDataset_new
     filename file_meta ds
     fd_filename fd_file_meta fd_preamble is_implicit_VR is_little_endian data_elements
     DicomDictionary keyword_dict objects clock clock_reads uid_source uid_calls
     cwd stdout saved writer FileDataset_save_as
     with_DicomDictionary with_keyword_dict with_objects with_clock_reads
     with_uid_calls with_stdout with_saved].

(** Reads an attribute of a dataset whose keywords are all known. *)
Ltac py_getattr :=
  match goal with
  | |- context [getattr ?k ?d] =>
      let r := eval vm_compute in (data_elements d !! k) in
      match r with
      | Some ?v => change (getattr k d) with (@ret Value v)
      end
  end.

(** Proves that a statement, run on a state given by its components,
    returns: the result and the new state are read off the run. *)
Ltac py_returns :=
  py_unfold;
  try (py_getattr; py_unfold;
       erewrite PresentationLUTShape_branch_run by apply lookup_insert_eq;
       rewrite decide_True by reflexivity; py_unfold);
  reflexivity.

(** Runs the statement of a goal [∃ a w', m w = Returns a w' ∧ _]. *)
Ltac py_run w :=
  destruct w; eexists _, _; split; [py_returns|]; py_unfold.

(** Looks a known keyword up in a dataset. *)
Ltac py_lookup := vm_compute; reflexivity.

(** Reads the file-meta object the constructor allocated. *)
Ltac py_file_meta :=
  rewrite ?lookup_alter_eq, lookup_insert_eq; reflexivity.

(** ** The model at work *)

Example strftime_date :
  strftime (mkDatetime 2024 2 29 13 5 7 123456) "%Y%m%d" = "20240229".
Proof. reflexivity. Qed.

Example strftime_time :
  strftime (mkDatetime 2024 2 29 13 5 7 123456) "%H%M%S.%f" = "130507.123456".
Proof. reflexivity. Qed.

Example os_path_join_relative :
  os_path_join "/tmp" nii2dcm_temp_filename = "/tmp/nii2dcm_tempfile.dcm".
Proof. reflexivity. Qed.

Example os_path_join_absolute :
  os_path_join "/tmp" "/data/scan.dcm" = "/data/scan.dcm".
Proof. reflexivity. Qed.

Example new_dict_items_keys_differ :
  NoDup (od_keys Dicom.new_dict_items) ∧
  NoDup (keyword <$> Dicom.new_dict_items.*2) ∧
  length Dicom.new_dict_items = 52%nat.
Proof.
  split; [|split; [|reflexivity]]; apply (bool_decide_unpack _); vm_compute; exact I.
Qed.

(** Constructing an MR dataset with the default file name and saving it,
    with a writer that writes, prints one line and writes one dataset. *)
Example DicomMRI_save_as_example :
  ∃ self w' w'',
    DicomMRI.__init__ nii2dcm_temp_filename example_world = Returns self w' ∧
    DicomMRI.save_as self w' = Returns tt w'' ∧
    stdout w'' = ["Writing DICOM to /tmp/nii2dcm_tempfile.dcm"] ∧
    saved w'' = [(nii2dcm_temp_filename, ds self)] ∧
    data_elements (ds self) !! "StudyInstanceUID" = Some (VStr "2.25.0") ∧
    data_elements (ds self) !! "StudyDate" = Some (VStr "20240229") ∧
    data_elements (ds self) !! "StudyTime" = Some (VStr "130500.123456") ∧
    od_get "PCVelocity" (keyword_dict w') = Some 0x2001101a ∧
    VR <$> od_get 0x2001101a (DicomDictionary w') = Some "FL".
Proof.
  unfold example_world, DicomMRI.save_as. eexists _, _, _.
  split; [py_returns|]. split; [py_returns|].
  py_unfold. repeat split; py_lookup.
Qed.

(** ** The baseline dataset *)

(** C9: the file-meta header of a baseline dataset has the transfer syntax
    Explicit VR Little Endian and the implementation version name
    nii2dcm_DICOM; the dataset is bound to the given file name, to that
    file-meta object (a new one, shared with [self.file_meta]) and to a
    preamble of 128 zero bytes. *)
Theorem Dicom_file_meta_and_binding (fname : string) (w : World) :
  ∃ self w', Dicom.__init__ fname w = Returns self w' ∧
    ∃ header,
      objects w' !! file_meta self = Some header ∧
      header !! "TransferSyntaxUID" = Some (VStr "1.2.840.10008.1.2.1") ∧
      header !! "ImplementationVersionName" = Some (VStr "nii2dcm_DICOM") ∧
      (file_meta self ∉ dom (objects w)) ∧
      filename self = fname ∧
      fd_filename (ds self) = fname ∧
      fd_file_meta (ds self) = file_meta self ∧
      fd_preamble (ds self) = replicate 128 x00 ∧
      length (fd_preamble (ds self)) = 128%nat ∧
      Forall (λ b, b = x00) (fd_preamble (ds self)).
Proof.
  py_run w. eexists.
  split; [py_file_meta|].
  split; [py_lookup|]. split; [py_lookup|].
  split; [apply is_fresh|].
  repeat split; try reflexivity.
  vm_compute. repeat constructor.
Qed.

(** C8: the constructor of the baseline class returns, on every file name
    and state of the process, with an empty SOPClassUID and an empty
    Modality: it leaves them empty and makes no check on them. *)
Theorem Dicom_SOPClassUID_Modality_empty (fname : string) (w : World) :
  ∃ self w', Dicom.__init__ fname w = Returns self w' ∧
    data_elements (ds self) !! "SOPClassUID" = Some (VStr "") ∧
    data_elements (ds self) !! "Modality" = Some (VStr "").
Proof.
  py_run w. split; py_lookup.
Qed.






(** ** The private-tag registration *)

(** C6: registering the private tags a second time changes nothing: the
    state of the process after two runs of [dcm_dictionary_update] is the
    state after one run, tag dictionary and reverse keyword map included,
    whatever the two dicts held before. *)
Theorem dcm_dictionary_update_idempotent (w : World) :
  ∃ w1, Dicom.dcm_dictionary_update w = Returns tt w1 ∧
    Dicom.dcm_dictionary_update w1 = Returns tt w1 ∧
    DicomDictionary w1 = od_update (DicomDictionary w) Dicom.new_dict_items ∧
    keyword_dict w1 =
      od_update (keyword_dict w)
        (od_of_list ((λ item, (keyword item.2, item.1)) <$> Dicom.new_dict_items)).
Proof.
  destruct w. py_unfold. eexists. split; [reflexivity|].
  py_unfold. split; [|split; reflexivity].
  by rewrite !od_update_idemp.
Qed.

(** ** The MR dataset *)

(** C1: an MR dataset has BitsAllocated 16, Modality MR and the SOP class
    MR Image Storage, in the dataset and as MediaStorageSOPClassUID of the
    file-meta object the dataset is bound to, whatever the file name. *)
Theorem DicomMRI_fixed_fields (fname : string) (w : World) :
  ∃ self w', DicomMRI.__init__ fname w = Returns self w' ∧
    data_elements (ds self) !! "BitsAllocated" = Some (VInt 16) ∧
    data_elements (ds self) !! "Modality" = Some (VStr "MR") ∧
    data_elements (ds self) !! "SOPClassUID" = Some (VStr "1.2.840.10008.5.1.4.1.1.4") ∧
    fd_file_meta (ds self) = file_meta self ∧
    ∃ header,
      objects w' !! file_meta self = Some header ∧
      header !! "MediaStorageSOPClassUID" = Some (VStr "1.2.840.10008.5.1.4.1.1.4").
Proof.
  py_run w.
  split; [py_lookup|]. split; [py_lookup|]. split; [py_lookup|].
  split; [reflexivity|].
  eexists. split; [py_file_meta|py_lookup].
Qed.

(** C4: the constructed MR dataset has PhotometricInterpretation
    MONOCHROME2 and PresentationLUTShape IDENTITY.  The branch that derives
    it, run on the baseline dataset with any value [p] for
    PhotometricInterpretation, sets PresentationLUTShape to IDENTITY for
    MONOCHROME2, to INVERSE for MONOCHROME1, and leaves it unset for every
    other value. *)
Theorem PresentationLUTShape_follows_PhotometricInterpretation
    (fname : string) (w : World) (p : Value) :
  ∃ self w', DicomMRI.__init__ fname w = Returns self w' ∧
    data_elements (ds self) !! "PhotometricInterpretation" = Some (VStr "MONOCHROME2") ∧
    data_elements (ds self) !! "PresentationLUTShape" = Some (VStr "IDENTITY") ∧
    ∃ base w1 self_p,
      Dicom.__init__ fname w = Returns base w1 ∧
      data_elements (ds base) !! "PresentationLUTShape" = None ∧
      DicomMRI.PresentationLUTShape_branch
        (ds_setattr "PhotometricInterpretation" p base) w1 = Returns self_p w1 ∧
      data_elements (ds self_p) !! "PhotometricInterpretation" = Some p ∧
      data_elements (ds self_p) !! "PresentationLUTShape" =
        if decide (p = VStr "MONOCHROME2") then Some (VStr "IDENTITY")
        else if decide (p = VStr "MONOCHROME1") then Some (VStr "INVERSE")
        else None.
Proof.
  py_run w.
  split; [py_lookup|]. split; [py_lookup|].
  eexists _, _, _. split; [py_returns|].
  split; [py_lookup|].
  split; [apply PresentationLUTShape_branch_run, lookup_insert_eq|].
  repeat case_decide; cbn [ds ds_setattr ds_modify setattr data_elements].
  - split; [by rewrite lookup_insert_ne, lookup_insert_eq|apply lookup_insert_eq].
  - split; [by rewrite lookup_insert_ne, lookup_insert_eq|apply lookup_insert_eq].
  - split; [apply lookup_insert_eq|].
    rewrite lookup_insert_ne by done. py_lookup.
Qed.

(** ScanningSequence of an MR dataset is RM. *)
Lemma DicomMRI_ScanningSequence (fname : string) (w : World) :
  ∃ self w', DicomMRI.__init__ fname w = Returns self w' ∧
    data_elements (ds self) !! "ScanningSequence" = Some (VStr "RM").
Proof. py_run w. py_lookup. Qed.

(** C3, as stated, fails: on the MR dataset built with the default file
    name, not every MR acquisition attribute holds the empty string.
    ScanningSequence holds RM. *)
Lemma ScanningSequence_is_not_a_placeholder :
  ¬ (∀ self w',
       DicomMRI.__init__ nii2dcm_temp_filename example_world = Returns self w' →
       Forall (λ k, data_elements (ds self) !! k = Some (VStr ""))
         mr_acquisition_attributes).
Proof.
  intros Hall.
  destruct (DicomMRI_ScanningSequence nii2dcm_temp_filename example_world)
    as (self & w' & Hrun & Hseq).
  specialize (Hall self w' Hrun).
  apply Forall_cons_1 in Hall as [Hempty _].
  rewrite Hseq in Hempty. discriminate Hempty.
Qed.

(** C3, amended: of the 45 additional MR acquisition attributes of an MR
    dataset, ScanningSequence holds RM and the 44 others hold the empty
    string; none of the 45 is an attribute of the baseline dataset, and with
    the six image-pixel attributes they are all that the MR dataset adds. *)
Theorem DicomMRI_acquisition_attributes (fname : string) (w : World) :
  ∃ self w', DicomMRI.__init__ fname w = Returns self w' ∧
    length mr_acquisition_attributes = 45%nat ∧
    data_elements (ds self) !! "ScanningSequence" = Some (VStr "RM") ∧
    Forall (λ k, data_elements (ds self) !! k = Some (VStr ""))
      mr_placeholder_attributes ∧
    ∃ base w1, Dicom.__init__ fname w = Returns base w1 ∧
      Forall (λ k, data_elements (ds base) !! k = None) mr_acquisition_attributes ∧
      ∀ k, is_Some (data_elements (ds self) !! k) →
           data_elements (ds base) !! k = None →
           k ∈ (mr_image_pixel_attributes ++ mr_acquisition_attributes)%list.
Proof.
  py_run w.
  split; [reflexivity|]. split; [py_lookup|].
  split; [repeat (constructor; [py_lookup|]); constructor|].
  eexists _, _. split; [py_returns|].
  split; [repeat (constructor; [py_lookup|]); constructor|].
  py_unfold. intros k.
  match goal with
  | |- _ → ?m !! k = None → _ => remember m as base_elements eqn:Hm
  end.
  intros Hmr Hbase. revert Hmr.
  repeat (rewrite lookup_insert; case_decide;
          [ subst k; intros _; first
              [ apply (bool_decide_unpack _); vm_compute; exact I
              | rewrite Hm in Hbase; vm_compute in Hbase; discriminate Hbase ]
          | ]).
  rewrite Hbase. by intros [? ?].
Qed.

(** ** The MR dataset extends the baseline dataset *)

(** Goes through the assignments of the MR stage, outermost first, for a
    keyword [k] the baseline dataset [m] maps to [v]: an assignment to
    another keyword is skipped; one to [k] is excluded by a hypothesis, or
    by the baseline dataset not having the keyword, or writes [v] again. *)
Ltac mr_frame k Hm Hbase :=
  repeat (rewrite lookup_insert; case_decide;
          [ subst k; first
              [ congruence
              | rewrite Hm in Hbase; vm_compute in Hbase;
                first [discriminate Hbase | exact Hbase] ]
          | ]).

(** C7: on the same file name and the same state of the process, every
    attribute of the baseline dataset other than Modality and SOPClassUID
    has the same value in the MR dataset (PresentationLUTShape is no
    attribute of the baseline dataset); file name, preamble, encoding flags
    and file-meta reference are the same; the file-meta object has one more
    attribute and its others unchanged; dictionary, clock and identifier
    generator are left as the baseline constructor leaves them. *)
Theorem DicomMRI_extends_Dicom (fname : string) (w : World) :
  ∃ base w1 mr w2,
    Dicom.__init__ fname w = Returns base w1 ∧
    DicomMRI.__init__ fname w = Returns mr w2 ∧
    (∀ k v, k ≠ "Modality" → k ≠ "SOPClassUID" →
       data_elements (ds base) !! k = Some v → data_elements (ds mr) !! k = Some v) ∧
    data_elements (ds base) !! "PresentationLUTShape" = None ∧
    dom (data_elements (ds base)) ⊆ dom (data_elements (ds mr)) ∧
    filename mr = filename base ∧
    file_meta mr = file_meta base ∧
    fd_filename (ds mr) = fd_filename (ds base) ∧
    fd_file_meta (ds mr) = fd_file_meta (ds base) ∧
    fd_preamble (ds mr) = fd_preamble (ds base) ∧
    is_implicit_VR (ds mr) = is_implicit_VR (ds base) ∧
    is_little_endian (ds mr) = is_little_endian (ds base) ∧
    (∃ header,
       objects w1 !! file_meta base = Some header ∧
       header !! "MediaStorageSOPClassUID" = None ∧
       objects w2 =
         <[file_meta base :=
             <["MediaStorageSOPClassUID" := VStr "1.2.840.10008.5.1.4.1.1.4"]> header]>
           (objects w1)) ∧
    DicomDictionary w2 = DicomDictionary w1 ∧
    keyword_dict w2 = keyword_dict w1 ∧
    clock_reads w2 = clock_reads w1 ∧
    uid_calls w2 = uid_calls w1 ∧
    stdout w2 = stdout w1 ∧
    saved w2 = saved w1.
Proof.
  destruct w. eexists _, _, _, _.
  split; [py_returns|]. split; [py_returns|]. py_unfold.
  split.
  { intros k v HM HS.
    match goal with
    | |- ?m !! k = Some v → _ => remember m as base_elements eqn:Hm
    end.
    intros Hbase. mr_frame k Hm Hbase. exact Hbase. }
  split; [py_lookup|].
  split.
  { apply elem_of_subseteq. intros k Hk. apply elem_of_dom in Hk.
    apply elem_of_dom. revert Hk.
    match goal with
    | |- is_Some (?m !! k) → _ => remember m as base_elements eqn:Hm
    end.
    intros [v Hbase].
    repeat (rewrite lookup_insert; case_decide; [by eexists|]).
    by exists v. }
  repeat (split; [reflexivity|]).
  split; [|repeat split; reflexivity].
  eexists. split; [py_file_meta|]. split; [py_lookup|].
  apply map_eq. intros l.
  destruct (decide (fresh (dom objects0) = l)) as [<-|Hne].
  - by rewrite !lookup_alter_eq, !lookup_insert_eq.
  - rewrite lookup_alter_ne, (lookup_insert_ne (alter _ _ _)) by done.
    reflexivity.
Qed.


(** The patient name of a baseline dataset. *)
Lemma Dicom_PatientName (fname : string) (w : World) :
  ∃ self w', Dicom.__init__ fname w = Returns self w' ∧
    data_elements (ds self) !! "PatientName" = Some (VStr "Test^Firstname").
Proof. py_run w. py_lookup. Qed.

(** C7 at work: the patient name of the baseline dataset built from
    [example_world] is the patient name of the MR dataset. *)
Lemma DicomMRI_extends_Dicom_witness :
  ∃ base w1 mr w2,
    Dicom.__init__ "scan.dcm" example_world = Returns base w1 ∧
    DicomMRI.__init__ "scan.dcm" example_world = Returns mr w2 ∧
    data_elements (ds base) !! "PatientName" = Some (VStr "Test^Firstname") ∧
    data_elements (ds mr) !! "PatientName" = Some (VStr "Test^Firstname").
Proof.
  destruct (DicomMRI_extends_Dicom "scan.dcm" example_world)
    as (base & w1 & mr & w2 & Hbase & Hmr & Hframe & _).
  destruct (Dicom_PatientName "scan.dcm" example_world)
    as (self & w' & Hrun & Hname).
  rewrite Hbase in Hrun. injection Hrun as <- <-.
  exists base, w1, mr, w2.
  split; [exact Hbase|]. split; [exact Hmr|]. split; [exact Hname|].
  apply Hframe; [discriminate|discriminate|exact Hname].
Defined.

(** ** The timestamp of the baseline dataset *)

(** The date/time pairs and the date keywords of a baseline dataset, in the
    order of the map. *)
Lemma Dicom_date_census (fname : string) (w : World) :
  ∃ self w', Dicom.__init__ fname w = Returns self w' ∧
    date_time_pairs (data_elements (ds self)) =
      [ ("SeriesDate", "SeriesTime"); ("StudyDate", "StudyTime");
        ("ContentDate", "ContentTime");
        ("InstanceCreationDate", "InstanceCreationTime");
        ("AcquisitionDate", "AcquisitionTime") ] ∧
    date_keywords (data_elements (ds self)) =
      [ "SeriesDate"; "StudyDate"; "ContentDate"; "InstanceCreationDate";
        "AcquisitionDate"; "PatientBirthDate" ] ∧
    data_elements (ds self) !! "PatientBirthDate" = Some (VStr "") ∧
    data_elements (ds self) !! "ContentDate" =
      Some (VStr (strftime (clock w (clock_reads w)) "%Y%m%d")).
Proof. py_run w. repeat split; py_lookup. Qed.

(** C2, as stated, fails: the baseline dataset built with the default file
    name has five date/time pairs, not six; and its six date attributes are
    not pairwise equal, since the sixth, PatientBirthDate, has no time
    attribute and holds the empty string, not the date of construction. *)
Lemma Dicom_has_no_sixth_date_time_pair :
  ¬ (∀ self w',
       Dicom.__init__ nii2dcm_temp_filename example_world = Returns self w' →
       length (date_time_pairs (data_elements (ds self))) = 6%nat) ∧
  ¬ (∀ self w',
       Dicom.__init__ nii2dcm_temp_filename example_world = Returns self w' →
       ∀ d1 d2,
         d1 ∈ date_keywords (data_elements (ds self)) →
         d2 ∈ date_keywords (data_elements (ds self)) →
         data_elements (ds self) !! d1 = data_elements (ds self) !! d2).
Proof.
  destruct (Dicom_date_census nii2dcm_temp_filename example_world)
    as (self & w' & Hrun & Hpairs & Hdates & Hbirth & Hcontent).
  split; intros Hall.
  - specialize (Hall self w' Hrun). rewrite Hpairs in Hall. discriminate Hall.
  - specialize (Hall self w' Hrun "PatientBirthDate" "ContentDate").
    rewrite Hdates, Hbirth, Hcontent in Hall.
    assert (Some (VStr "") =
            Some (VStr (strftime (clock example_world (clock_reads example_world))
                          "%Y%m%d"))) as Heq
      by (apply Hall; set_solver).
    vm_compute in Heq. discriminate Heq.
Qed.

(** C2, amended: the constructor reads the clock once, and the five
    date/time pairs ContentDate/Time, StudyDate/Time, SeriesDate/Time,
    AcquisitionDate/Time and InstanceCreationDate/Time all hold the date and
    the time of that one reading; these five are all the date/time pairs of
    the dataset. *)
Theorem Dicom_single_timestamp (fname : string) (w : World) :
  ∃ self w', Dicom.__init__ fname w = Returns self w' ∧
    clock_reads w' = S (clock_reads w) ∧
    Forall (λ p,
        data_elements (ds self) !! p.1 =
          Some (VStr (strftime (clock w (clock_reads w)) "%Y%m%d")) ∧
        data_elements (ds self) !! p.2 =
          Some (VStr (strftime (clock w (clock_reads w)) "%H%M%S.%f")))
      stamped_pairs ∧
    date_time_pairs (data_elements (ds self)) ≡ₚ stamped_pairs ∧
    length stamped_pairs = 5%nat.
Proof.
  py_run w.
  split; [reflexivity|].
  split; [repeat (constructor; [split; py_lookup|]); constructor|].
  split; [|reflexivity].
  match goal with
  | |- ?l ≡ₚ _ => let r := eval vm_compute in l in
                  replace l with r by (vm_compute; reflexivity)
  end.
  apply (bool_decide_unpack _). vm_compute. exact I.
Qed.

(** ** The identifiers of the baseline dataset *)

(** The identifiers of [example_world] are fresh and not empty. *)
Lemma example_uid_source_inj (i j : nat) :
  uid_source example_world i = uid_source example_world j → i = j.
Proof.
  simpl. intros Heq. injection Heq as Heq. apply (inj pretty). exact Heq.
Qed.

Lemma example_uid_source_nonempty (i : nat) :
  uid_source example_world i ≠ "".
Proof. simpl. discriminate. Qed.

(** The StudyInstanceUID of a baseline dataset is the string the generator
    returns at the first call of the construction. *)
Lemma Dicom_StudyInstanceUID (fname : string) (w : World) :
  ∃ self w', Dicom.__init__ fname w = Returns self w' ∧
    data_elements (ds self) !! "StudyInstanceUID" =
      Some (VStr (uid_source w (uid_calls w))).
Proof. py_run w. py_lookup. Qed.

(** C5, as stated, fails: a generator that never returns the same string
    twice can return the empty string once.  With the generator of
    [empty_first_uid_world], which never repeats, the StudyInstanceUID of the
    baseline dataset is empty. *)
Lemma Dicom_identifier_can_be_empty :
  (∀ i j, uid_source empty_first_uid_world i = uid_source empty_first_uid_world j →
          i = j) ∧
  (∃ self w',
     Dicom.__init__ nii2dcm_temp_filename empty_first_uid_world = Returns self w' ∧
     data_elements (ds self) !! "StudyInstanceUID" = Some (VStr "")) ∧
  ¬ (∀ self w',
       Dicom.__init__ nii2dcm_temp_filename empty_first_uid_world = Returns self w' →
       ∃ u, data_elements (ds self) !! "StudyInstanceUID" = Some (VStr u) ∧ u ≠ "").
Proof.
  destruct (Dicom_StudyInstanceUID nii2dcm_temp_filename empty_first_uid_world)
    as (self & w' & Hrun & Hstudy).
  split; [|split].
  - intros [|i] [|j] Heq; simpl in Heq; try done.
    injection Heq as Heq. f_equal. apply (inj pretty). exact Heq.
  - by exists self, w'.
  - intros Hall.
    destruct (Hall self w' Hrun) as (u & Hu & Hnonempty).
    rewrite Hstudy in Hu. injection Hu as <-. by apply Hnonempty.
Qed.

(** C5, amended: when the identifier generator never returns the same
    string twice and never the empty string, StudyInstanceUID, SeriesInstanceUID and
    FrameOfReferenceUID of a baseline dataset are three strings, none of
    them empty, and the six identifiers of two datasets constructed one
    after the other in the process (the second from a state [w2] with the
    same generator, not earlier than the end of the first construction) are
    pairwise different.  A construction draws three identifiers. *)
Theorem Dicom_unique_identifiers (fname1 fname2 : string) (w w2 : World)
    (Hfresh : ∀ i j, uid_source w i = uid_source w j → i = j)
    (Hnonempty : ∀ i, uid_source w i ≠ "")
    (Hsame : uid_source w2 = uid_source w)
    (Hlater : (uid_calls w + 3 ≤ uid_calls w2)%nat) :
  ∃ self1 w1 self2 w2' u1 u2 u3 v1 v2 v3,
    Dicom.__init__ fname1 w = Returns self1 w1 ∧
    Dicom.__init__ fname2 w2 = Returns self2 w2' ∧
    uid_calls w1 = (uid_calls w + 3)%nat ∧
    data_elements (ds self1) !! "StudyInstanceUID" = Some (VStr u1) ∧
    data_elements (ds self1) !! "SeriesInstanceUID" = Some (VStr u2) ∧
    data_elements (ds self1) !! "FrameOfReferenceUID" = Some (VStr u3) ∧
    data_elements (ds self2) !! "StudyInstanceUID" = Some (VStr v1) ∧
    data_elements (ds self2) !! "SeriesInstanceUID" = Some (VStr v2) ∧
    data_elements (ds self2) !! "FrameOfReferenceUID" = Some (VStr v3) ∧
    Forall (λ u, u ≠ "") [u1; u2; u3; v1; v2; v3] ∧
    NoDup [u1; u2; u3; v1; v2; v3].
Proof.
  destruct w as [DD kd objs clk reads src calls dir out sv wr].
  destruct w2 as [DD2 kd2 objs2 clk2 reads2 src2 calls2 dir2 out2 sv2 wr2].
  simpl in Hfresh, Hnonempty, Hsame, Hlater. subst src2.
  eexists _, _, _, _.
  exists (src calls), (src (S calls)), (src (S (S calls))).
  exists (src calls2), (src (S calls2)), (src (S (S calls2))).
  split; [py_returns|]. split; [py_returns|]. py_unfold.
  split; [lia|].
  do 6 (split; [py_lookup|]).
  split; [repeat constructor; apply Hnonempty|].
  repeat (apply NoDup_cons; split;
          [ rewrite ?not_elem_of_cons; repeat split;
            try apply not_elem_of_nil; intros Heq%Hfresh; lia |]).
  apply NoDup_nil_2.
Qed.

(** C5 at work: two datasets built from [example_world], the second after
    seven identifiers have been drawn. *)
Lemma Dicom_unique_identifiers_witness :
  ∃ self1 w1 self2 w2' u1 u2 u3 v1 v2 v3,
    Dicom.__init__ "first.dcm" example_world = Returns self1 w1 ∧
    Dicom.__init__ "second.dcm" (with_uid_calls 7 example_world) = Returns self2 w2' ∧
    uid_calls w1 = (uid_calls example_world + 3)%nat ∧
    data_elements (ds self1) !! "StudyInstanceUID" = Some (VStr u1) ∧
    data_elements (ds self1) !! "SeriesInstanceUID" = Some (VStr u2) ∧
    data_elements (ds self1) !! "FrameOfReferenceUID" = Some (VStr u3) ∧
    data_elements (ds self2) !! "StudyInstanceUID" = Some (VStr v1) ∧
    data_elements (ds self2) !! "SeriesInstanceUID" = Some (VStr v2) ∧
    data_elements (ds self2) !! "FrameOfReferenceUID" = Some (VStr v3) ∧
    Forall (λ u, u ≠ "") [u1; u2; u3; v1; v2; v3] ∧
    NoDup [u1; u2; u3; v1; v2; v3].
Proof.
  apply (Dicom_unique_identifiers "first.dcm" "second.dcm"
           example_world (with_uid_calls 7 example_world)).
  - exact example_uid_source_inj.
  - exact example_uid_source_nonempty.
  - reflexivity.
  - vm_compute. lia.
Defined.

(** * Further properties of the code *)

(** ** Lookups in an updated dict *)

Section odict_lookup.
Context {K V : Type} `{EqDecision K}.
Implicit Types (k : K) (v : V) (d items : list (K * V)).

(** [d.update(items)] leaves the keys that [items] does not have. *)
Lemma od_get_update_other d items k :
  k ∉ od_keys items → od_get k (od_update d items) = od_get k d.
Proof.
  revert d. unfold od_keys.
  induction items as [|[k1 v1] items IH]; intros d Hk; [done|].
  simpl in Hk. apply not_elem_of_cons in Hk as [Hne Hk].
  change (od_get k (od_update (od_set k1 v1 d) items) = od_get k d).
  rewrite IH by done. by apply od_get_set_ne.
Qed.

(** After [d.update(items)], an item of [items] is found under its key when
    no later item has that key. *)
Lemma od_get_update_item d items k v :
  NoDup (od_keys items) → (k, v) ∈ items →
  od_get k (od_update d items) = Some v.
Proof.
  revert d. unfold od_keys.
  induction items as [|[k1 v1] items IH]; intros d Hdup Hin.
  - by apply elem_of_nil in Hin.
  - simpl in Hdup. apply NoDup_cons in Hdup as [Hk1 Hdup].
    change (od_get k (od_update (od_set k1 v1 d) items) = Some v).
    apply elem_of_cons in Hin as [[= -> ->]|Hin].
    + rewrite od_get_update_other by done. apply od_get_set_eq.
    + by apply IH.
Qed.

(** An assignment keeps the keys there were, in their order, and adds at
    most one key at the end. *)
Lemma od_keys_set_prefix k v d : od_keys d `prefix_of` od_keys (od_set k v d).
Proof.
  unfold od_keys. induction d as [|[k' v'] d IH]; simpl; [apply prefix_nil|].
  case_decide; simpl; [done|]. by apply prefix_cons.
Qed.

Lemma od_keys_update_prefix d items :
  od_keys d `prefix_of` od_keys (od_update d items).
Proof.
  revert d. induction items as [|[k v] items IH]; intros d; [done|].
  etrans; [apply (od_keys_set_prefix k v)|apply IH].
Qed.

End odict_lookup.

(** ** The registered private tags *)

(** The tags and the keywords of the private entries differ from one
    another, so the reverse dict has one item per entry. *)
Lemma new_dict_items_NoDup :
  NoDup (od_keys Dicom.new_dict_items) ∧
  NoDup (od_keys ((λ item, (keyword item.2, item.1)) <$> Dicom.new_dict_items)).
Proof. split; apply (bool_decide_unpack _); vm_compute; exact I. Qed.

Lemma new_names_dict_items :
  od_of_list ((λ item, (keyword item.2, item.1)) <$> Dicom.new_dict_items) =
  (λ item : Z * DictEntry, (keyword item.2, item.1)) <$> Dicom.new_dict_items.
Proof. vm_compute. reflexivity. Qed.

(** X1: after [dcm_dictionary_update], whatever the two dicts held before,
    every private tag has its hard-coded entry in [DicomDictionary] (an
    earlier definition of the tag is overwritten) and the keyword of the
    entry leads back to the tag in [keyword_dict]. *)
Theorem dcm_dictionary_update_registers (w : World) :
  ∃ w1, Dicom.dcm_dictionary_update w = Returns tt w1 ∧
    ∀ tag entry, (tag, entry) ∈ Dicom.new_dict_items →
      od_get tag (DicomDictionary w1) = Some entry ∧
      od_get (keyword entry) (keyword_dict w1) = Some tag ∧
      (od_get (keyword entry) (keyword_dict w1) ≫= λ t,
         keyword <$> od_get t (DicomDictionary w1)) = Some (keyword entry).
Proof.
  destruct (new_dict_items_NoDup) as [Htags Hkeywords].
  destruct w. py_unfold. eexists. split; [reflexivity|]. py_unfold.
  intros tag entry Hin.
  assert (od_get tag (od_update DicomDictionary0 Dicom.new_dict_items) = Some entry)
    as Htag by by apply od_get_update_item.
  assert (od_get (keyword entry)
            (od_update keyword_dict0
               (od_of_list ((λ item, (keyword item.2, item.1)) <$> Dicom.new_dict_items)))
          = Some tag) as Hkeyword.
  { rewrite new_names_dict_items. apply od_get_update_item; [done|].
    apply list_elem_of_fmap. by exists (tag, entry). }
  split; [exact Htag|]. split; [exact Hkeyword|].
  rewrite Hkeyword. cbn [mbind option_bind]. by rewrite Htag.
Qed.

(** X2: [dcm_dictionary_update] only adds and overwrites.  A tag or keyword
    that is not one of the private ones keeps what it had; the keys the two
    dicts had stay, in their order, before any new key; objects, clock,
    identifier generator, output and written datasets are untouched. *)
Theorem dcm_dictionary_update_frame (w : World) :
  ∃ w1, Dicom.dcm_dictionary_update w = Returns tt w1 ∧
    (∀ tag, tag ∉ od_keys Dicom.new_dict_items →
       od_get tag (DicomDictionary w1) = od_get tag (DicomDictionary w)) ∧
    (∀ kw, kw ∉ (keyword <$> Dicom.new_dict_items.*2) →
       od_get kw (keyword_dict w1) = od_get kw (keyword_dict w)) ∧
    od_keys (DicomDictionary w) `prefix_of` od_keys (DicomDictionary w1) ∧
    od_keys (keyword_dict w) `prefix_of` od_keys (keyword_dict w1) ∧
    objects w1 = objects w ∧
    clock_reads w1 = clock_reads w ∧
    uid_calls w1 = uid_calls w ∧
    stdout w1 = stdout w ∧
    saved w1 = saved w.
Proof.
  destruct w. py_unfold. eexists. split; [reflexivity|]. py_unfold.
  split; [intros tag Htag; by apply od_get_update_other|].
  split.
  { intros kw Hkw. apply od_get_update_other.
    rewrite new_names_dict_items. unfold od_keys.
    replace (((λ item : Z * DictEntry, (keyword item.2, item.1)) <$>
                Dicom.new_dict_items).*1)
      with (keyword <$> Dicom.new_dict_items.*2) by (vm_compute; reflexivity).
    exact Hkw. }
  split; [apply od_keys_update_prefix|].
  split; [apply od_keys_update_prefix|].
  repeat split; reflexivity.
Qed.

(** X3: the registration runs in every constructor and adds up to one
    registration: after a [Dicom] and then a [DicomMRI] are constructed, the
    two dicts are what the first construction left, that is, the dicts before
    updated once with the private entries. *)
Theorem constructors_register_once (fname1 fname2 : string) (w : World) :
  ∃ self1 w1 self2 w2,
    Dicom.__init__ fname1 w = Returns self1 w1 ∧
    DicomMRI.__init__ fname2 w1 = Returns self2 w2 ∧
    DicomDictionary w1 = od_update (DicomDictionary w) Dicom.new_dict_items ∧
    keyword_dict w1 =
      od_update (keyword_dict w)
        (od_of_list ((λ item, (keyword item.2, item.1)) <$> Dicom.new_dict_items)) ∧
    DicomDictionary w2 = DicomDictionary w1 ∧
    keyword_dict w2 = keyword_dict w1.
Proof.
  destruct w. eexists _, _, _, _.
  split; [py_returns|]. split; [py_returns|]. py_unfold.
  split; [reflexivity|]. split; [reflexivity|].
  by rewrite !od_update_idemp.
Qed.

(** ** What the constructors leave out *)

(** X4: the private tags are registered, not set: no keyword of a private
    entry is an attribute of a constructed dataset, baseline or MR. *)
Theorem private_keywords_not_set (fname : string) (w : World) :
  ∃ base w1 mr w2,
    Dicom.__init__ fname w = Returns base w1 ∧
    DicomMRI.__init__ fname w = Returns mr w2 ∧
    Forall (λ kw, data_elements (ds base) !! kw = None ∧
                  data_elements (ds mr) !! kw = None)
      (keyword <$> Dicom.new_dict_items.*2).
Proof.
  destruct w. eexists _, _, _, _.
  split; [py_returns|]. split; [py_returns|]. py_unfold.
  match goal with
  | |- Forall _ ?l => let r := eval vm_compute in l in change l with r
  end.
  repeat (constructor; [split; py_lookup|]). constructor.
Qed.

(** X5: the encoding flags of a constructed dataset say explicit VR and
    little endian, as the transfer syntax of its file-meta header does, in
    both classes. *)
Theorem encoding_flags_match_transfer_syntax (fname : string) (w : World) :
  ∃ base w1 mr w2,
    Dicom.__init__ fname w = Returns base w1 ∧
    DicomMRI.__init__ fname w = Returns mr w2 ∧
    is_implicit_VR (ds base) = false ∧ is_little_endian (ds base) = true ∧
    is_implicit_VR (ds mr) = false ∧ is_little_endian (ds mr) = true ∧
    ∃ header1 header2,
      objects w1 !! fd_file_meta (ds base) = Some header1 ∧
      objects w2 !! fd_file_meta (ds mr) = Some header2 ∧
      header1 !! "TransferSyntaxUID" = Some (VStr "1.2.840.10008.1.2.1") ∧
      header2 !! "TransferSyntaxUID" = Some (VStr "1.2.840.10008.1.2.1").
Proof.
  destruct w. eexists _, _, _, _.
  split; [py_returns|]. split; [py_returns|]. py_unfold.
  do 4 (split; [reflexivity|]).
  eexists _, _. split; [py_file_meta|]. split; [py_file_meta|].
  split; py_lookup.
Qed.

(** The file-meta object of a baseline dataset is alive after the
    construction and has no MediaStorageSOPClassUID. *)
Lemma Dicom_file_meta_is_allocated (fname : string) (w : World) :
  ∃ self w', Dicom.__init__ fname w = Returns self w' ∧
    ∃ header, objects w' !! file_meta self = Some header ∧
      header !! "MediaStorageSOPClassUID" = None.
Proof. py_run w. eexists. split; [py_file_meta|py_lookup]. Qed.

(** X6: a construction allocates a file-meta object of its own and touches
    no other: a file-meta object [l] that is alive before an MR dataset is
    constructed is not the one of the new dataset and is the same
    afterwards. *)
Theorem DicomMRI_file_meta_is_not_shared (fname : string) (w : World) (l : loc)
    (Halive : is_Some (objects w !! l)) :
  ∃ self w', DicomMRI.__init__ fname w = Returns self w' ∧
    file_meta self ≠ l ∧
    objects w' !! l = objects w !! l.
Proof.
  destruct w. cbn [objects] in Halive.
  assert (fresh (dom objects0) ≠ l) as Hne.
  { intros <-. apply elem_of_dom in Halive. by apply is_fresh in Halive. }
  eexists _, _. split; [py_returns|]. py_unfold.
  split; [exact Hne|].
  by rewrite !lookup_alter_ne, lookup_insert_ne.
Qed.

(** X6 at work: a baseline dataset is built from [example_world], then an MR
    dataset; the header of the first has no MediaStorageSOPClassUID, before
    and after. *)
Lemma DicomMRI_file_meta_is_not_shared_witness :
  ∃ first w1 second w2 header,
    Dicom.__init__ "first.dcm" example_world = Returns first w1 ∧
    DicomMRI.__init__ "second.dcm" w1 = Returns second w2 ∧
    file_meta second ≠ file_meta first ∧
    objects w2 !! file_meta first = Some header ∧
    header !! "MediaStorageSOPClassUID" = None.
Proof.
  destruct (Dicom_file_meta_is_allocated "first.dcm" example_world)
    as (first & w1 & Hfirst & header & Hheader & Hnone).
  destruct (DicomMRI_file_meta_is_not_shared "second.dcm" w1 (file_meta first))
    as (second & w2 & Hsecond & Hne & Hsame); [by rewrite Hheader|].
  exists first, w1, second, w2, header.
  split; [exact Hfirst|]. split; [exact Hsecond|]. split; [exact Hne|].
  split; [by rewrite Hsame|exact Hnone].
Defined.

(** X7: no constructor generates a SOPInstanceUID: in both classes it is
    the empty placeholder, as InstanceCreatorUID is, and a construction
    draws three identifiers, those of study, series and frame of
    reference. *)
Theorem SOPInstanceUID_is_not_generated (fname : string) (w : World) :
  ∃ base w1 mr w2,
    Dicom.__init__ fname w = Returns base w1 ∧
    DicomMRI.__init__ fname w = Returns mr w2 ∧
    data_elements (ds base) !! "SOPInstanceUID" = Some (VStr "") ∧
    data_elements (ds mr) !! "SOPInstanceUID" = Some (VStr "") ∧
    data_elements (ds base) !! "InstanceCreatorUID" = Some (VStr "") ∧
    data_elements (ds mr) !! "InstanceCreatorUID" = Some (VStr "") ∧
    uid_calls w1 = (uid_calls w + 3)%nat ∧
    uid_calls w2 = (uid_calls w + 3)%nat ∧
    data_elements (ds mr) !! "StudyInstanceUID" =
      Some (VStr (uid_source w (uid_calls w))) ∧
    data_elements (ds mr) !! "SeriesInstanceUID" =
      Some (VStr (uid_source w (uid_calls w + 1))) ∧
    data_elements (ds mr) !! "FrameOfReferenceUID" =
      Some (VStr (uid_source w (uid_calls w + 2))).
Proof.
  destruct w. eexists _, _, _, _.
  split; [py_returns|]. split; [py_returns|]. py_unfold.
  do 4 (split; [py_lookup|]).
  split; [lia|]. split; [lia|].
  replace (uid_calls0 + 1)%nat with (S uid_calls0) by lia.
  replace (uid_calls0 + 2)%nat with (S (S uid_calls0)) by lia.
  repeat split; py_lookup.
Qed.

(** ** Renewing the study and series tags *)

(** X8: [init_study_tags], run again on a constructed dataset, draws one
    identifier, the next of the generator (the fourth since the construction
    began), stores it as StudyInstanceUID and changes no other attribute and
    nothing else of the process.  When the generator never repeats, the new
    StudyInstanceUID differs from the three identifiers the dataset had. *)
Theorem init_study_tags_renews_StudyInstanceUID (fname : string) (w : World) :
  ∃ self w1 self' w2,
    Dicom.__init__ fname w = Returns self w1 ∧
    Dicom.init_study_tags self w1 = Returns self' w2 ∧
    data_elements (ds self') !! "StudyInstanceUID" =
      Some (VStr (uid_source w1 (uid_calls w1))) ∧
    uid_source w1 = uid_source w ∧
    uid_calls w1 = (uid_calls w + 3)%nat ∧
    uid_calls w2 = S (uid_calls w1) ∧
    (∀ k, k ≠ "StudyInstanceUID" →
       data_elements (ds self') !! k = data_elements (ds self) !! k) ∧
    filename self' = filename self ∧
    file_meta self' = file_meta self ∧
    objects w2 = objects w1 ∧
    clock_reads w2 = clock_reads w1 ∧
    DicomDictionary w2 = DicomDictionary w1 ∧
    keyword_dict w2 = keyword_dict w1 ∧
    ((∀ i j, uid_source w i = uid_source w j → i = j) →
     ∀ k, k ∈ ["StudyInstanceUID"; "SeriesInstanceUID"; "FrameOfReferenceUID"] →
          data_elements (ds self) !! k ≠
          data_elements (ds self') !! "StudyInstanceUID").
Proof.
  destruct w as [DD kd objs clk reads src calls dir out sv wr].
  eexists _, _, _, _.
  split; [py_returns|]. split; [py_returns|]. py_unfold.
  split; [apply lookup_insert_eq|].
  split; [reflexivity|]. split; [lia|]. split; [reflexivity|].
  split; [intros k Hk; by rewrite lookup_insert_ne|].
  do 6 (split; [reflexivity|]).
  intros Hfresh k Hk. rewrite lookup_insert_eq.
  rewrite !elem_of_cons in Hk.
  destruct Hk as [->|[->|[->|Hk]]]; [| | |by apply elem_of_nil in Hk].
  - assert (src calls ≠ src (S (S (S calls)))) as Hne
      by (intros Heq%Hfresh; lia).
    vm_compute. intros [= Heq]. by apply Hne.
  - assert (src (S calls) ≠ src (S (S (S calls)))) as Hne
      by (intros Heq%Hfresh; lia).
    vm_compute. intros [= Heq]. by apply Hne.
  - assert (src (S (S calls)) ≠ src (S (S (S calls)))) as Hne
      by (intros Heq%Hfresh; lia).
    vm_compute. intros [= Heq]. by apply Hne.
Qed.

(** X8 at work, on [example_world]. *)
Lemma init_study_tags_renews_StudyInstanceUID_witness :
  ∃ self w1 self' w2,
    Dicom.__init__ "scan.dcm" example_world = Returns self w1 ∧
    Dicom.init_study_tags self w1 = Returns self' w2 ∧
    data_elements (ds self') !! "StudyInstanceUID" = Some (VStr "2.25.3") ∧
    data_elements (ds self') !! "StudyInstanceUID" ≠
      data_elements (ds self) !! "StudyInstanceUID" ∧
    data_elements (ds self') !! "SeriesInstanceUID" =
      data_elements (ds self) !! "SeriesInstanceUID".
Proof.
  destruct (init_study_tags_renews_StudyInstanceUID "scan.dcm" example_world)
    as (self & w1 & self' & w2 & Hrun & Hagain & Hstudy' & Hsrc & Hcalls & _ &
        Hframe & _ & _ & _ & _ & _ & _ & Hnew).
  exists self, w1, self', w2.
  split; [exact Hrun|]. split; [exact Hagain|].
  split; [by rewrite Hstudy', Hsrc, Hcalls|].
  split.
  - intros Heq. apply (Hnew example_uid_source_inj "StudyInstanceUID").
    + apply list_elem_of_here.
    + by rewrite Heq.
  - apply Hframe. discriminate.
Defined.

(** X9: [init_series_tags], run again on a constructed dataset on which the
    caller has set SeriesNumber, draws two identifiers, the next two of the
    generator, stores them as SeriesInstanceUID and FrameOfReferenceUID and
    resets SeriesNumber and AcquisitionNumber to the empty string; it keeps
    StudyInstanceUID and every other attribute, and changes nothing else of
    the process.  When the generator never repeats, the two new identifiers
    differ from each other and from the three the dataset had. *)
Theorem init_series_tags_renews_series (fname : string) (w : World) (number : Value) :
  ∃ self w1 self' w2,
    Dicom.__init__ fname w = Returns self w1 ∧
    Dicom.init_series_tags (ds_setattr "SeriesNumber" number self) w1 =
      Returns self' w2 ∧
    data_elements (ds self') !! "SeriesInstanceUID" =
      Some (VStr (uid_source w1 (uid_calls w1))) ∧
    data_elements (ds self') !! "FrameOfReferenceUID" =
      Some (VStr (uid_source w1 (S (uid_calls w1)))) ∧
    data_elements (ds self') !! "SeriesNumber" = Some (VStr "") ∧
    data_elements (ds self') !! "AcquisitionNumber" = Some (VStr "") ∧
    uid_source w1 = uid_source w ∧
    uid_calls w1 = (uid_calls w + 3)%nat ∧
    uid_calls w2 = S (S (uid_calls w1)) ∧
    (∀ k, k ∉ ["SeriesInstanceUID"; "FrameOfReferenceUID"; "SeriesNumber";
               "AcquisitionNumber"] →
       data_elements (ds self') !! k = data_elements (ds self) !! k) ∧
    filename self' = filename self ∧
    file_meta self' = file_meta self ∧
    objects w2 = objects w1 ∧
    clock_reads w2 = clock_reads w1 ∧
    DicomDictionary w2 = DicomDictionary w1 ∧
    keyword_dict w2 = keyword_dict w1 ∧
    ((∀ i j, uid_source w i = uid_source w j → i = j) →
     ∃ study series frame series' frame',
       data_elements (ds self) !! "StudyInstanceUID" = Some (VStr study) ∧
       data_elements (ds self) !! "SeriesInstanceUID" = Some (VStr series) ∧
       data_elements (ds self) !! "FrameOfReferenceUID" = Some (VStr frame) ∧
       data_elements (ds self') !! "StudyInstanceUID" = Some (VStr study) ∧
       data_elements (ds self') !! "SeriesInstanceUID" = Some (VStr series') ∧
       data_elements (ds self') !! "FrameOfReferenceUID" = Some (VStr frame') ∧
       NoDup [study; series; frame; series'; frame']).
Proof.
  destruct w as [DD kd objs clk reads src calls dir out sv wr].
  eexists _, _, _, _.
  split; [py_returns|]. split; [py_returns|]. py_unfold.
  do 4 (split; [py_lookup|]).
  split; [reflexivity|]. split; [lia|]. split; [reflexivity|].
  split.
  { intros k Hk. rewrite !not_elem_of_cons in Hk.
    destruct Hk as (? & ? & ? & ? & _).
    by do 5 (rewrite lookup_insert_ne by done). }
  do 6 (split; [reflexivity|]).
  intros Hfresh.
  exists (src calls), (src (S calls)), (src (S (S calls))),
         (src (S (S (S calls)))), (src (S (S (S (S calls))))).
  do 6 (split; [py_lookup|]).
  repeat (apply NoDup_cons; split;
          [ rewrite ?not_elem_of_cons; repeat split;
            try apply not_elem_of_nil; intros Heq%Hfresh; lia |]).
  apply NoDup_nil_2.
Qed.

(** X9 at work: on [example_world], a caller sets SeriesNumber 7 and starts a
    new series. *)
Lemma init_series_tags_renews_series_witness :
  ∃ self w1 self' w2,
    Dicom.__init__ "scan.dcm" example_world = Returns self w1 ∧
    Dicom.init_series_tags (ds_setattr "SeriesNumber" (VStr "7") self) w1 =
      Returns self' w2 ∧
    data_elements (ds self') !! "SeriesNumber" = Some (VStr "") ∧
    data_elements (ds self') !! "SeriesInstanceUID" = Some (VStr "2.25.3") ∧
    data_elements (ds self') !! "FrameOfReferenceUID" = Some (VStr "2.25.4") ∧
    data_elements (ds self') !! "StudyInstanceUID" =
      data_elements (ds self) !! "StudyInstanceUID" ∧
    data_elements (ds self') !! "SeriesInstanceUID" ≠
      data_elements (ds self) !! "SeriesInstanceUID".
Proof.
  destruct (init_series_tags_renews_series "scan.dcm" example_world (VStr "7"))
    as (self & w1 & self' & w2 & Hrun & Hagain & Hseries' & Hframe' & Hnumber &
        _ & Hsrc & Hcalls & _ & Hkeep & _ & _ & _ & _ & _ & _ & Hnew).
  exists self, w1, self', w2.
  split; [exact Hrun|]. split; [exact Hagain|]. split; [exact Hnumber|].
  split; [by rewrite Hseries', Hsrc, Hcalls|].
  split; [by rewrite Hframe', Hsrc, Hcalls|].
  destruct (Hnew example_uid_source_inj)
    as (study & series & frame & series1 & frame1 &
        Hstudy & Hold & _ & Hstudy' & Hnew' & _ & Hdup).
  split; [by rewrite Hstudy, Hstudy'|].
  rewrite Hold, Hnew'. intros [= Heq].
  apply NoDup_cons in Hdup as [_ Hdup]. apply NoDup_cons in Hdup as [Hnot _].
  apply Hnot. rewrite Heq. apply list_elem_of_further, list_elem_of_here.
Defined.

(** ** Placeholders and values *)

(** Goes through the assignments of a constructed dataset for an attribute
    [k] with value [v]: the value assigned is the empty string, or the
    keyword is one of those listed as valued. *)
Ltac census k :=
  repeat (rewrite lookup_insert; case_decide;
          [ subst k; intros [= <-] Hvalued; first
              [ reflexivity
              | exfalso; apply Hvalued, (bool_decide_unpack _);
                vm_compute; exact I ]
          | ]);
  by rewrite lookup_empty.

(** X10: a baseline dataset has 51 attributes; the 22 valued ones are
    attributes of it, and every other attribute holds the empty string. *)
Theorem Dicom_placeholders (fname : string) (w : World) :
  ∃ self w', Dicom.__init__ fname w = Returns self w' ∧
    size (data_elements (ds self)) = 51%nat ∧
    length Dicom_valued_attributes = 22%nat ∧
    Forall (λ k, is_Some (data_elements (ds self) !! k)) Dicom_valued_attributes ∧
    ∀ k v, data_elements (ds self) !! k = Some v →
           k ∉ Dicom_valued_attributes → v = VStr "".
Proof.
  py_run w.
  split; [py_lookup|]. split; [reflexivity|].
  split; [repeat (constructor; [by eexists; py_lookup|]); constructor|].
  intros k v. census k.
Qed.

(** X11: an MR dataset has 102 attributes; the 22 valued attributes of the
    baseline and the 6 valued attributes of the MR class are attributes of
    it, and every other attribute holds the empty string, BitsStored, HighBit
    and SamplesPerPixel among them. *)
Theorem DicomMRI_placeholders (fname : string) (w : World) :
  ∃ self w', DicomMRI.__init__ fname w = Returns self w' ∧
    size (data_elements (ds self)) = 102%nat ∧
    Forall (λ k, is_Some (data_elements (ds self) !! k))
      (Dicom_valued_attributes ++ DicomMRI_valued_attributes)%list ∧
    (∀ k v, data_elements (ds self) !! k = Some v →
            k ∉ (Dicom_valued_attributes ++ DicomMRI_valued_attributes)%list →
            v = VStr "") ∧
    Forall (λ k, data_elements (ds self) !! k = Some (VStr ""))
      ["BitsStored"; "HighBit"; "SamplesPerPixel"].
Proof.
  py_run w.
  split; [py_lookup|].
  split; [repeat (constructor; [by eexists; py_lookup|]); constructor|].
  split; [intros k v; census k|].
  repeat (constructor; [py_lookup|]). constructor.
Qed.

(** ** The format of the timestamp *)

Lemma append_empty_r (s : string) : s +:+ "" = s.
Proof.
  induction s as [|c s IH]; [done|].
  change (String c (s +:+ "") = String c s). by rewrite IH.
Qed.

Lemma length_append (s t : string) :
  String.length (s +:+ t) = (String.length s + String.length t)%nat.
Proof.
  induction s as [|c s IH]; [done|].
  change (S (String.length (s +:+ t)) = S (String.length s + String.length t)).
  by rewrite IH.
Qed.

Lemma list_ascii_of_string_append (s t : string) :
  list_ascii_of_string (s +:+ t) =
  (list_ascii_of_string s ++ list_ascii_of_string t)%list.
Proof.
  induction s as [|c s IH]; [done|].
  change (c :: list_ascii_of_string (s +:+ t) =
          c :: (list_ascii_of_string s ++ list_ascii_of_string t)%list).
  by rewrite IH.
Qed.

Lemma decimal_from_append (acc : N) (s t : string) :
  decimal_from acc (s +:+ t) = decimal_from (decimal_from acc s) t.
Proof.
  revert acc. induction s as [|c s IH]; intros acc; [done|].
  change (decimal_from (10 * acc + (N_of_ascii c - 48)) (s +:+ t) =
          decimal_from (decimal_from (10 * acc + (N_of_ascii c - 48)) s) t).
  apply IH.
Qed.

Lemma N_of_ascii_digit (d : N) : (d < 10)%N → N_of_ascii (digit d) = (48 + d)%N.
Proof. intros Hd. unfold digit. apply N_ascii_embedding. lia. Qed.

(** [zero_padded] writes [width] digits, and they write [n] when [n] fits. *)
Lemma zero_padded_digits (width : nat) (n : N) : digits width (zero_padded width n).
Proof.
  revert n. induction width as [|width IH]; intros n; cbn [zero_padded].
  - split; [done|constructor].
  - destruct (IH (n / 10)%N) as [Hlen Hall]. split.
    + rewrite length_append, Hlen. cbn [String.length]. lia.
    + rewrite list_ascii_of_string_append. apply Forall_app. split; [done|].
      constructor; [|constructor]. unfold is_digit.
      assert (n mod 10 < 10)%N as Hd by (apply N.mod_lt; lia).
      rewrite N_of_ascii_digit by done.
      generalize dependent (n mod 10)%N. intros d Hd. lia.
Qed.

Lemma zero_padded_decimal (width : nat) (n acc : N) :
  (n < 10 ^ N.of_nat width)%N →
  decimal_from acc (zero_padded width n) = (acc * 10 ^ N.of_nat width + n)%N.
Proof.
  revert n acc. induction width as [|width IH]; intros n acc Hn.
  - cbn [zero_padded decimal_from]. change (10 ^ N.of_nat 0)%N with 1%N in *. lia.
  - rewrite Nat2N.inj_succ, N.pow_succ_r' in *. cbn [zero_padded].
    assert (n / 10 < 10 ^ N.of_nat width)%N as Hq
      by (apply N.Div0.div_lt_upper_bound; lia).
    assert (n mod 10 < 10)%N as Hd by (apply N.mod_lt; lia).
    assert (n = 10 * (n / 10) + n mod 10)%N as Hdiv by (apply N.div_mod; lia).
    rewrite decimal_from_append, IH by done.
    cbn [decimal_from]. rewrite N_of_ascii_digit by done.
    revert Hd Hdiv. clear.
    generalize (n / 10)%N (n mod 10)%N (10 ^ N.of_nat width)%N.
    intros q d p Hd Hdiv. lia.
Qed.

Lemma strftime_Ymd (dt : datetime) :
  strftime dt "%Y%m%d" =
  zero_padded 4 (year dt) +:+ zero_padded 2 (month dt) +:+ zero_padded 2 (day dt).
Proof.
  change (strftime dt "%Y%m%d")
    with (zero_padded 4 (year dt) +:+ zero_padded 2 (month dt) +:+
          zero_padded 2 (day dt) +:+ "").
  by rewrite append_empty_r.
Qed.

Lemma strftime_HMSf (dt : datetime) :
  strftime dt "%H%M%S.%f" =
  zero_padded 2 (hour dt) +:+ zero_padded 2 (minute dt) +:+
  zero_padded 2 (second dt) +:+ "." +:+ zero_padded 6 (microsecond dt).
Proof.
  change (strftime dt "%H%M%S.%f")
    with (zero_padded 2 (hour dt) +:+ zero_padded 2 (minute dt) +:+
          zero_padded 2 (second dt) +:+
          String "." (zero_padded 6 (microsecond dt) +:+ "")).
  by rewrite append_empty_r.
Qed.

(** The date and the time of a baseline dataset are those of the reading
    of the clock. *)
Lemma Dicom_date_and_time (fname : string) (w : World) :
  ∃ self w', Dicom.__init__ fname w = Returns self w' ∧
    data_elements (ds self) !! "ContentDate" =
      Some (VStr (strftime (clock w (clock_reads w)) "%Y%m%d")) ∧
    data_elements (ds self) !! "ContentTime" =
      Some (VStr (strftime (clock w (clock_reads w)) "%H%M%S.%f")).
Proof. py_run w. split; py_lookup. Qed.

(** X12: when the clock reading has the values of a Python [datetime] and a
    year of four digits, the date that the five date/time pairs of a
    baseline dataset hold is YYYYMMDD and the time is HHMMSS.ffffff: strings
    of 4, 2, 2 and of 2, 2, 2, 6 decimal digits that write year, month, day,
    hour, minute, second and microsecond of the reading. *)
Theorem Dicom_timestamp_format (fname : string) (w : World)
    (Hrange : datetime_in_range (clock w (clock_reads w))) :
  ∃ self w' YYYY MM DD hh mm ss ffffff,
    Dicom.__init__ fname w = Returns self w' ∧
    Forall (λ p,
        data_elements (ds self) !! p.1 = Some (VStr (YYYY +:+ MM +:+ DD)) ∧
        data_elements (ds self) !! p.2 =
          Some (VStr (hh +:+ mm +:+ ss +:+ "." +:+ ffffff)))
      stamped_pairs ∧
    digits 4 YYYY ∧ digits 2 MM ∧ digits 2 DD ∧
    digits 2 hh ∧ digits 2 mm ∧ digits 2 ss ∧ digits 6 ffffff ∧
    decimal YYYY = year (clock w (clock_reads w)) ∧
    decimal MM = month (clock w (clock_reads w)) ∧
    decimal DD = day (clock w (clock_reads w)) ∧
    decimal hh = hour (clock w (clock_reads w)) ∧
    decimal mm = minute (clock w (clock_reads w)) ∧
    decimal ss = second (clock w (clock_reads w)) ∧
    decimal ffffff = microsecond (clock w (clock_reads w)).
Proof.
  destruct w as [DD0 kd objs clk reads src calls dir out sv wr].
  simpl in Hrange. set (dt := clk reads) in *.
  destruct Hrange as (Hy & Hm & Hd & Hh & Hmi & Hs & Hf).
  eexists _, _.
  exists (zero_padded 4 (year dt)), (zero_padded 2 (month dt)),
         (zero_padded 2 (day dt)), (zero_padded 2 (hour dt)),
         (zero_padded 2 (minute dt)), (zero_padded 2 (second dt)),
         (zero_padded 6 (microsecond dt)).
  split; [py_returns|]. py_unfold.
  split.
  { rewrite <-strftime_Ymd, <-strftime_HMSf. subst dt.
    repeat (constructor; [split; py_lookup|]). constructor. }
  do 7 (split; [apply zero_padded_digits|]).
  unfold decimal.
  repeat split;
    (rewrite zero_padded_decimal; [reflexivity|]);
    match goal with
    | |- (_ < ?p)%N => let r := eval vm_compute in p in change p with r
    end; lia.
Qed.

(** X12 at work: the first reading of the clock of [example_world]. *)
Lemma Dicom_timestamp_format_witness :
  ∃ self w',
    Dicom.__init__ "scan.dcm" example_world = Returns self w' ∧
    data_elements (ds self) !! "ContentDate" = Some (VStr "20240229") ∧
    data_elements (ds self) !! "ContentTime" = Some (VStr "130500.123456").
Proof.
  assert (datetime_in_range (clock example_world (clock_reads example_world)))
    as Hrange by (vm_compute; repeat split; intros; discriminate).
  destruct (Dicom_timestamp_format "scan.dcm" example_world Hrange)
    as (self & w' & YYYY & MM & DD & hh & mm & ss & ffffff & Hrun & _).
  exists self, w'. split; [exact Hrun|].
  destruct (Dicom_date_and_time "scan.dcm" example_world)
    as (self0 & w0 & Hrun0 & Hdate & Htime).
  rewrite Hrun in Hrun0. injection Hrun0 as <- <-.
  split; [exact Hdate|exact Htime].
Defined.

(** ** Saving *)


(** The writer of [unwritable_world] raises: an MR dataset is constructed
    there and [save_as] raises, with the line printed and nothing written. *)
Example save_as_unwritable_path :
  ∃ self w1 w2,
    DicomMRI.__init__ "nii2dcm_no_such_dir/scan.dcm" unwritable_world =
      Returns self w1 ∧
    DicomMRI.save_as self w1 =
      Raises (FileNotFoundError "nii2dcm_no_such_dir/scan.dcm") w2 ∧
    stdout w2 = ["Writing DICOM to /tmp/nii2dcm_no_such_dir/scan.dcm"] ∧
    saved w2 = [].
Proof.
  unfold unwritable_world, DicomMRI.save_as. eexists _, _, _.
  split; [py_returns|]. py_unfold. repeat split; reflexivity.
Qed.
